(** * Recipe_App: the Python backend (recipe_generator.py, app.py,
    config.py)

    A shallow embedding of the response parser, the prompt builder, the two
    generation orchestrators, the two Flask handlers and the configuration,
    followed by the properties of the specification that were checked
    against them and by further properties read off the code.

    Conventions of the embedding.
    - A Python [str] is a [string]; every [ascii] stands for the code point of
      the same number (0..255).
    - A decoded JSON document, and every [dict] the code builds, is a [json]
      value; a [dict] keeps its keys in insertion order.
    - Code that may raise lives in [exc A = pyexn + A]; code that may also
      call the upstream model lives in [Py A], which threads the list of the
      prompts sent so far.
    - [json.loads], the upstream model, [request.get_json()] and pydantic's
      scalar conversions are libraries outside the repository: they are
      Section variables, and a reference JSON decoder for a fragment of the
      grammar ([json_loads_ref]) instantiates them in the concrete runs. *)

From Stdlib Require Import String Ascii List ZArith Bool Lia PeanoNat.
From Stdlib Require Import Numbers.DecimalString.
From Corelib Require Import PrimFloat.
Import ListNotations.

Set Warnings "-register-all".

Local Open Scope list_scope.
Local Open Scope string_scope.

(* ------------------------------------------------------------------ *)
(** ** Python strings *)

(** The double quote and the line feed, which a literal cannot hold. *)
Definition dq : string := String "034"%char EmptyString.
Definition nl : string := String "010"%char EmptyString.

(** [str.isspace] on one character, which is also what [\s] matches in a
    [str] pattern: TAB..CR, FS..US, space, NEL and NBSP below 256. *)
Definition isspace (c : ascii) : bool :=
  let n := nat_of_ascii c in
  (((9 <=? n) && (n <=? 13)) || ((28 <=? n) && (n <=? 32))
   || (n =? 133) || (n =? 160))%nat.

(** [s.lstrip()] *)
Fixpoint lstrip (s : string) : string :=
  match s with
  | EmptyString => EmptyString
  | String c s' => if isspace c then lstrip s' else s
  end.

(** [s.rstrip()] *)
Fixpoint rstrip (s : string) : string :=
  match s with
  | EmptyString => EmptyString
  | String c s' =>
      match rstrip s' with
      | EmptyString => if isspace c then EmptyString else String c EmptyString
      | r => String c r
      end
  end.

(** [s.strip()] *)
Definition strip (s : string) : string := rstrip (lstrip s).

(** [s.startswith(p)] *)
Definition startswith (p s : string) : bool := prefix p s.

(** [Some r] when [s = p ++ r], the text left after a literal is matched. *)
Fixpoint drop_prefix (p s : string) : option string :=
  match p with
  | EmptyString => Some s
  | String a p' =>
      match s with
      | EmptyString => None
      | String b s' => if Ascii.eqb a b then drop_prefix p' s' else None
      end
  end.

(** [p in s] for two strings *)
Fixpoint contains (p s : string) : bool :=
  prefix p s ||
  match s with
  | EmptyString => false
  | String _ s' => contains p s'
  end.

(** [sep.join(l)] *)
Definition join (sep : string) (l : list string) : string := String.concat sep l.

(** [s[:n]] *)
Definition slice_to (n : nat) (s : string) : string := substring 0 n s.

(** [str(z)] for an [int] *)
Definition str_of_int (z : Z) : string :=
  NilEmpty.string_of_int (Z.to_int z).

(** *** The two substitutions of the fence removal *)

Definition fence : string := "```".

(** [re.sub(r'^```(?:json)?\s*', '', s)]: without MULTILINE the anchor holds
    at offset 0 only, so there is at most one match; the optional group and
    the star are greedy and nothing after them can fail. *)
Definition sub_open_fence (s : string) : string :=
  match drop_prefix fence s with
  | Some r =>
      lstrip (match drop_prefix "json" r with Some r' => r' | None => r end)
  | None => s
  end.

(** One attempt of [\s*```$] at the head of [s]: the star takes the whole
    run of blanks (a shorter run is followed by a blank, not a backtick),
    and [$] holds at the end of the text or before a last line feed. The
    result is what follows the match. *)
Definition match_close_fence (s : string) : option string :=
  match drop_prefix fence (lstrip s) with
  | Some tail =>
      if String.eqb tail EmptyString || String.eqb tail nl
      then Some tail else None
  | None => None
  end.

(** [re.sub(r'\s*```$', '', s)]: the leftmost offset that matches is
    replaced; what follows a match is empty or one line feed, where the
    pattern cannot match again. *)
Fixpoint sub_close_fence (s : string) : string :=
  match match_close_fence s with
  | Some tail => tail
  | None =>
      match s with
      | EmptyString => EmptyString
      | String c s' => String c (sub_close_fence s')
      end
  end.

(** The cleaning both parsers start with (recipe_generator.py, lines
    108-115 and 160-165): strip, remove the fences when the text starts with
    one, strip again for [json.loads]. *)
Definition clean_response (response_text : string) : string :=
  let cleaned_text := strip response_text in
  let cleaned_text :=
    if startswith fence cleaned_text
    then sub_close_fence (sub_open_fence cleaned_text)
    else cleaned_text in
  strip cleaned_text.

(* ------------------------------------------------------------------ *)
(** ** JSON values and Python exceptions *)

Inductive json : Type :=
| JNull
| JBool (b : bool)
| JInt (z : Z)
| JFloat (f : float)
| JStr (s : string)
| JArr (l : list json)
| JObj (o : list (string * json)).

(** [type(v).__name__] *)
Definition type_name (v : json) : string :=
  match v with
  | JNull => "NoneType"
  | JBool _ => "bool"
  | JInt _ => "int"
  | JFloat _ => "float"
  | JStr _ => "str"
  | JArr _ => "list"
  | JObj _ => "dict"
  end.

(** [bool(v)] *)
Definition truthy (v : json) : bool :=
  match v with
  | JNull => false
  | JBool b => b
  | JInt z => negb (z =? 0)%Z
  | JFloat f => negb (PrimFloat.eqb f PrimFloat.zero)
  | JStr s => negb (String.eqb s EmptyString)
  | JArr l => match l with [] => false | _ => true end
  | JObj o => match o with [] => false | _ => true end
  end.

(** [d.get(k)] on the items of a [dict] *)
Fixpoint lookup (k : string) (o : list (string * json)) : option json :=
  match o with
  | [] => None
  | (k', v) :: o' => if String.eqb k k' then Some v else lookup k o'
  end.

(** [k in d] *)
Definition has_key (k : string) (o : list (string * json)) : bool :=
  match lookup k o with Some _ => true | None => false end.

(** [d[k] = v]: a key already there keeps its place. *)
Fixpoint dict_set (k : string) (v : json) (o : list (string * json))
  : list (string * json) :=
  match o with
  | [] => [(k, v)]
  | (k', v') :: o' =>
      if String.eqb k k' then (k, v) :: o' else (k', v') :: dict_set k v o'
  end.

Inductive exn_class : Type :=
| JSONDecodeError
| ValueError
| TypeError
| AttributeError
| KeyError
| Exception_
| OtherError (name : string).

(** An instance of a subclass of [Exception], with [str(e)]. *)
Record pyexn : Type := PyExn { exn_cls : exn_class; str_exn : string }.

Definition is_JSONDecodeError (e : pyexn) : bool :=
  match exn_cls e with JSONDecodeError => true | _ => false end.

Definition exc (A : Type) : Type := (pyexn + A)%type.

Definition raise {A : Type} (c : exn_class) (msg : string) : exc A :=
  inl (PyExn c msg).

Definition ebind {A B : Type} (m : exc A) (k : A -> exc B) : exc B :=
  match m with
  | inl e => inl e
  | inr a => k a
  end.

Notation "x <-e m ;; k" := (ebind m (fun x => k))
  (at level 61, m at next level, right associativity).

(** [x in v] for a string [x]: key test on a dict, element test on a list,
    substring test on a string, TypeError on the rest. *)
Definition py_in (x : string) (v : json) : exc bool :=
  match v with
  | JObj o => inr (has_key x o)
  | JArr l =>
      inr (existsb (fun e => match e with
                             | JStr s => String.eqb s x
                             | _ => false
                             end) l)
  | JStr s => inr (contains x s)
  | _ => raise TypeError
           ("argument of type '" ++ type_name v ++ "' is not iterable")
  end.

(** [v.get(k, default)] *)
Definition py_get (v : json) (k : string) (default : json) : exc json :=
  match v with
  | JObj o => inr (match lookup k o with Some x => x | None => default end)
  | _ => raise AttributeError
           ("'" ++ type_name v ++ "' object has no attribute 'get'")
  end.

(** [d[k]] on a dict the code built itself *)
Definition py_getitem (v : json) (k : string) : exc json :=
  match v with
  | JObj o =>
      match lookup k o with
      | Some x => inr x
      | None => raise KeyError ("'" ++ k ++ "'")
      end
  | _ => raise TypeError
           ("'" ++ type_name v ++ "' object is not subscriptable")
  end.

(** [len(v)] *)
Definition py_len (v : json) : exc nat :=
  match v with
  | JStr s => inr (String.length s)
  | JArr l => inr (List.length l)
  | JObj o => inr (List.length o)
  | _ => raise TypeError
           ("object of type '" ++ type_name v ++ "' has no len()")
  end.

(* ------------------------------------------------------------------ *)
(** ** A reference decoder for a fragment of JSON

    It follows the grammar [json.loads] accepts, minus the numbers with a
    fraction or an exponent and the [\u] escapes above 255, which it rejects.
    It stands in for [json.loads] in the concrete runs only. *)

Definition is_json_ws (c : ascii) : bool :=
  let n := nat_of_ascii c in
  ((n =? 32) || (n =? 9) || (n =? 10) || (n =? 13))%nat.

Fixpoint skip_ws (s : string) : string :=
  match s with
  | EmptyString => EmptyString
  | String c s' => if is_json_ws c then skip_ws s' else s
  end.

Definition is_digit (c : ascii) : bool :=
  let n := nat_of_ascii c in ((48 <=? n) && (n <=? 57))%nat.

Definition digit_val (c : ascii) : Z := Z.of_nat (nat_of_ascii c - 48).

Fixpoint take_digits (acc : Z) (s : string) : Z * string :=
  match s with
  | EmptyString => (acc, s)
  | String c s' =>
      if is_digit c then take_digits (10 * acc + digit_val c)%Z s'
      else (acc, s)
  end.

(** The digits of an integer: one zero, or a run that starts with 1..9. *)
Definition parse_nat (s : string) : option (Z * string) :=
  match s with
  | EmptyString => None
  | String c s' =>
      if Ascii.eqb c "0" then Some (0%Z, s')
      else if is_digit c then Some (take_digits (digit_val c) s')
      else None
  end.

Definition starts_fraction (s : string) : bool :=
  match s with
  | String c _ => Ascii.eqb c "." || Ascii.eqb c "e" || Ascii.eqb c "E"
  | EmptyString => false
  end.

Definition parse_number (s : string) : option (json * string) :=
  match drop_prefix "-" s with
  | Some r =>
      match drop_prefix "Infinity" r with
      | Some r' => Some (JFloat neg_infinity, r')
      | None =>
          match parse_nat r with
          | Some (z, r') =>
              if starts_fraction r' then None else Some (JInt (- z), r')
          | None => None
          end
      end
  | None =>
      match parse_nat s with
      | Some (z, r') => if starts_fraction r' then None else Some (JInt z, r')
      | None => None
      end
  end.

Definition hex_val (c : ascii) : option nat :=
  let n := nat_of_ascii c in
  if ((48 <=? n) && (n <=? 57))%nat then Some (n - 48)
  else if ((65 <=? n) && (n <=? 70))%nat then Some (n - 55)
  else if ((97 <=? n) && (n <=? 102))%nat then Some (n - 87)
  else None.

Definition hex4 (a b c d : ascii) : option nat :=
  match hex_val a, hex_val b, hex_val c, hex_val d with
  | Some x, Some y, Some z, Some w => Some (((x * 16 + y) * 16 + z) * 16 + w)
  | _, _, _, _ => None
  end.

Definition simple_escape (c : ascii) : option ascii :=
  if Ascii.eqb c "034" then Some "034"%char
  else if Ascii.eqb c "\" then Some "\"%char
  else if Ascii.eqb c "/" then Some "/"%char
  else if Ascii.eqb c "b" then Some "008"%char
  else if Ascii.eqb c "f" then Some "012"%char
  else if Ascii.eqb c "n" then Some "010"%char
  else if Ascii.eqb c "r" then Some "013"%char
  else if Ascii.eqb c "t" then Some "009"%char
  else None.

Definition cons_char (c : ascii) (r : option (string * string))
  : option (string * string) :=
  match r with
  | Some (body, rest) => Some (String c body, rest)
  | None => None
  end.

(** The body of a string literal, after its opening quote. *)
Fixpoint parse_str (s : string) : option (string * string) :=
  match s with
  | EmptyString => None
  | String c r =>
      if Ascii.eqb c "034" then Some (EmptyString, r)
      else if Ascii.eqb c "\" then
        match r with
        | String e r1 =>
            if Ascii.eqb e "u" then
              match r1 with
              | String h1 (String h2 (String h3 (String h4 r2))) =>
                  match hex4 h1 h2 h3 h4 with
                  | Some n =>
                      if (n <? 256)%nat
                      then cons_char (ascii_of_nat n) (parse_str r2)
                      else None
                  | None => None
                  end
              | _ => None
              end
            else
              match simple_escape e with
              | Some x => cons_char x (parse_str r1)
              | None => None
              end
        | EmptyString => None
        end
      else if (nat_of_ascii c <? 32)%nat then None
      else cons_char c (parse_str r)
  end.

Section Containers.
Variable parse_item : string -> option (json * string).

(** The elements of an array after the first bracket, up to the closing
    one. *)
Fixpoint parse_elements (fuel : nat) (s : string)
  : option (list json * string) :=
  match fuel with
  | O => None
  | S n =>
      match parse_item s with
      | Some (v, r) =>
          match skip_ws r with
          | String c r' =>
              if Ascii.eqb c "," then
                match parse_elements n r' with
                | Some (vs, r2) => Some (v :: vs, r2)
                | None => None
                end
              else if Ascii.eqb c "]" then Some ([v], r')
              else None
          | EmptyString => None
          end
      | None => None
      end
  end.

(** The members of an object, [s] standing at the quote of a key. *)
Fixpoint parse_members (fuel : nat) (acc : list (string * json))
  (s : string) : option (list (string * json) * string) :=
  match fuel with
  | O => None
  | S n =>
      match drop_prefix dq s with
      | Some r =>
          match parse_str r with
          | Some (k, r1) =>
              match drop_prefix ":" (skip_ws r1) with
              | Some r2 =>
                  match parse_item r2 with
                  | Some (v, r3) =>
                      match skip_ws r3 with
                      | String c r4 =>
                          if Ascii.eqb c "," then
                            parse_members n (dict_set k v acc) (skip_ws r4)
                          else if Ascii.eqb c "}" then
                            Some (dict_set k v acc, r4)
                          else None
                      | EmptyString => None
                      end
                  | None => None
                  end
              | None => None
              end
          | None => None
          end
      | None => None
      end
  end.
End Containers.

Definition literal (name : string) (v : json) (s : string)
  : option (json * string) :=
  match drop_prefix name s with
  | Some r => Some (v, r)
  | None => None
  end.

Fixpoint parse_value (fuel : nat) (s : string) : option (json * string) :=
  match fuel with
  | O => None
  | S n =>
      match skip_ws s with
      | EmptyString => None
      | String c r =>
          if Ascii.eqb c "{" then
            match skip_ws r with
            | String c' r' =>
                if Ascii.eqb c' "}" then Some (JObj [], r')
                else
                  match parse_members (parse_value n) n [] (String c' r') with
                  | Some (o, r2) => Some (JObj o, r2)
                  | None => None
                  end
            | EmptyString => None
            end
          else if Ascii.eqb c "[" then
            match skip_ws r with
            | String c' r' =>
                if Ascii.eqb c' "]" then Some (JArr [], r')
                else
                  match parse_elements (parse_value n) n (String c' r') with
                  | Some (l, r2) => Some (JArr l, r2)
                  | None => None
                  end
            | EmptyString => None
            end
          else if Ascii.eqb c "034" then
            match parse_str r with
            | Some (x, r') => Some (JStr x, r')
            | None => None
            end
          else if Ascii.eqb c "t" then literal "true" (JBool true) (String c r)
          else if Ascii.eqb c "f" then literal "false" (JBool false) (String c r)
          else if Ascii.eqb c "n" then literal "null" JNull (String c r)
          else if Ascii.eqb c "N" then literal "NaN" (JFloat nan) (String c r)
          else if Ascii.eqb c "I" then
            literal "Infinity" (JFloat infinity) (String c r)
          else parse_number (String c r)
      end
  end.

(** [str(e)] of the error of a text that is no JSON from its first
    character on; the reference decoder reports every error with it. *)
Definition expecting_value : string :=
  "Expecting value: line 1 column 1 (char 0)".

Definition json_loads_ref (s : string) : exc json :=
  match parse_value (S (String.length s)) s with
  | Some (v, r) =>
      match skip_ws r with
      | EmptyString => inr v
      | _ => raise JSONDecodeError expecting_value
      end
  | None => raise JSONDecodeError expecting_value
  end.

(* ------------------------------------------------------------------ *)
(** ** Code that calls the upstream model *)

(** A computation starts from the prompts sent so far and ends with a value
    or an exception, and the prompts sent by then. *)
Definition Py (A : Type) : Type := list string -> exc A * list string.

Definition ret {A : Type} (a : A) : Py A := fun sent => (inr a, sent).

Definition bind {A B : Type} (m : Py A) (k : A -> Py B) : Py B :=
  fun sent =>
    match m sent with
    | (inl e, sent') => (inl e, sent')
    | (inr a, sent') => k a sent'
    end.

Definition lift {A : Type} (m : exc A) : Py A := fun sent => (m, sent).

(** [try: body  except Exception as e: handler e] *)
Definition try_except {A : Type} (body : Py A) (handler : pyexn -> Py A)
  : Py A :=
  fun sent =>
    match body sent with
    | (inl e, sent') => handler e sent'
    | (inr a, sent') => (inr a, sent')
    end.

Notation "x <- m ;; k" := (bind m (fun x => k))
  (at level 61, m at next level, right associativity).

(** A request handled from scratch: no prompt sent yet. *)
Definition run {A : Type} (m : Py A) : exc A * list string := m [].

(** Each line followed by a line feed. *)
Fixpoint lines (l : list string) : string :=
  match l with
  | [] => EmptyString
  | x :: l' => x ++ nl ++ lines l'
  end.

Module RecipeGenerator.

(** Lines 57-88 of recipe_generator.py: the instructions and the schema
    the model is asked to fill in. *)
Definition recipe_format : list string :=
  [ EmptyString;
    "Instructions:";
    "1. Create ONE complete recipe that uses as many of the provided ingredients as possible";
    "2. You can suggest common pantry items (salt, pepper, oil, etc.) if needed";
    "3. Provide the response in the following JSON format ONLY (no additional text):";
    EmptyString;
    "{";
    "  " ++ dq ++ "recipe_name" ++ dq ++ ": " ++ dq ++ "Name of the dish"
      ++ dq ++ ",";
    "  " ++ dq ++ "description" ++ dq ++ ": " ++ dq
      ++ "Brief description of the dish" ++ dq ++ ",";
    "  " ++ dq ++ "cuisine_type" ++ dq ++ ": " ++ dq ++ "Type of cuisine"
      ++ dq ++ ",";
    "  " ++ dq ++ "prep_time" ++ dq ++ ": " ++ dq
      ++ "Preparation time in minutes" ++ dq ++ ",";
    "  " ++ dq ++ "cook_time" ++ dq ++ ": " ++ dq
      ++ "Cooking time in minutes" ++ dq ++ ",";
    "  " ++ dq ++ "servings" ++ dq ++ ": " ++ dq ++ "Number of servings"
      ++ dq ++ ",";
    "  " ++ dq ++ "difficulty" ++ dq ++ ": " ++ dq ++ "Easy/Medium/Hard"
      ++ dq ++ ",";
    "  " ++ dq ++ "ingredients" ++ dq ++ ": [";
    "    {" ++ dq ++ "item" ++ dq ++ ": " ++ dq ++ "ingredient name" ++ dq
      ++ ", " ++ dq ++ "quantity" ++ dq ++ ": " ++ dq ++ "amount" ++ dq
      ++ ", " ++ dq ++ "unit" ++ dq ++ ": " ++ dq ++ "measurement unit"
      ++ dq ++ "}";
    "  ],";
    "  " ++ dq ++ "instructions" ++ dq ++ ": [";
    "    " ++ dq ++ "Step 1 instruction" ++ dq ++ ",";
    "    " ++ dq ++ "Step 2 instruction" ++ dq;
    "  ],";
    "  " ++ dq ++ "nutritional_info" ++ dq ++ ": {";
    "    " ++ dq ++ "calories" ++ dq ++ ": " ++ dq
      ++ "approximate calories per serving" ++ dq ++ ",";
    "    " ++ dq ++ "protein" ++ dq ++ ": " ++ dq ++ "grams" ++ dq ++ ",";
    "    " ++ dq ++ "carbs" ++ dq ++ ": " ++ dq ++ "grams" ++ dq ++ ",";
    "    " ++ dq ++ "fat" ++ dq ++ ": " ++ dq ++ "grams" ++ dq;
    "  },";
    "  " ++ dq ++ "tips" ++ dq ++ ": [";
    "    " ++ dq ++ "Cooking tip 1" ++ dq ++ ",";
    "    " ++ dq ++ "Cooking tip 2" ++ dq;
    "  ]";
    "}" ].

(** The closing sentence of the single-recipe prompt (line 100). *)
Definition json_only : string :=
  nl ++ nl
  ++ "Provide ONLY the JSON response, no additional text or markdown formatting.".

(** [_build_prompt], lines 50-102. [None] is Python's [None]; the two
    [if]s test truthiness, so an empty string and an empty list add
    nothing. *)
Definition _build_prompt (ingredients : list string)
  (cuisine_type : option string)
  (dietary_restrictions : option (list string)) : string :=
  let ingredients_str := join ", " ingredients in
  let prompt :=
    "You are a professional chef. Create a detailed recipe using the following ingredients: "
    ++ ingredients_str ++ nl ++ lines recipe_format in
  let prompt :=
    match cuisine_type with
    | Some c =>
        if negb (String.eqb c EmptyString)
        then prompt ++ nl ++ "- Prefer " ++ c ++ " cuisine style"
        else prompt
    | None => prompt
    end in
  let prompt :=
    match dietary_restrictions with
    | Some d =>
        if (match d with [] => false | _ => true end)
           && (0 <? List.length d)%nat
        then
          let restrictions_str := join ", " d in
          prompt ++ nl ++ "- Follow these dietary restrictions: "
          ++ restrictions_str
        else prompt
    | None => prompt
    end in
  prompt ++ json_only.

(** The prompt of [generate_multiple_recipes], lines 140-155. *)
Definition suggestions_prompt (ingredients : list string) (count : Z)
  : string :=
  "You are a professional chef. Suggest " ++ str_of_int count
  ++ " different recipes using these ingredients: "
  ++ join ", " ingredients ++ nl
  ++ lines
       [ EmptyString;
         "Provide " ++ str_of_int count
           ++ " brief recipe ideas in JSON format:";
         "{";
         "  " ++ dq ++ "recipes" ++ dq ++ ": [";
         "    {";
         "      " ++ dq ++ "recipe_name" ++ dq ++ ": " ++ dq ++ "Name" ++ dq
           ++ ",";
         "      " ++ dq ++ "description" ++ dq ++ ": " ++ dq
           ++ "Brief description" ++ dq ++ ",";
         "      " ++ dq ++ "cuisine_type" ++ dq ++ ": " ++ dq ++ "Type" ++ dq
           ++ ",";
         "      " ++ dq ++ "difficulty" ++ dq ++ ": " ++ dq
           ++ "Easy/Medium/Hard" ++ dq ++ ",";
         "      " ++ dq ++ "estimated_time" ++ dq ++ ": " ++ dq
           ++ "Total time in minutes" ++ dq;
         "    }";
         "  ]";
         "}";
         EmptyString ]
  ++ "Provide ONLY the JSON response.".

Definition required_fields : list string :=
  ["recipe_name"; "ingredients"; "instructions"].

(** Lines 119-121: the loop over the required fields. *)
Fixpoint check_required (fields : list string) (recipe_data : json)
  : exc unit :=
  match fields with
  | [] => inr tt
  | field :: rest =>
      present <-e py_in field recipe_data ;;
      if negb present
      then raise ValueError ("Missing required field: " ++ field)
      else check_required rest recipe_data
  end.

(** Lines 127-133: what a text that is no JSON is turned into. *)
Definition fallback_recipe (response_text : string) : json :=
  JObj [("recipe_name", JStr "Generated Recipe");
        ("description", JStr (slice_to 200 response_text));
        ("ingredients", JArr []);
        ("instructions", JArr [JStr response_text]);
        ("error", JStr "Failed to parse structured recipe")].

Definition success_recipe (recipe_data : json) : json :=
  JObj [("success", JBool true); ("recipe", recipe_data)].

Definition success_recipes (recipes : json) : json :=
  JObj [("success", JBool true); ("recipes", recipes)].

Definition failure (e : pyexn) (message : string) : json :=
  JObj [("success", JBool false);
        ("error", JStr (str_exn e));
        ("message", JStr message)].

Section WithLibraries.
(** [json.loads] on a [str]. *)
Variable json_loads : string -> exc json.
(** [self.model.generate_content(prompt)] followed by [response.text]. *)
Variable generate_content : string -> exc string.

Definition call_model (prompt : string) : Py string :=
  fun sent => (generate_content prompt, (sent ++ [prompt])%list).

(** The [try] block of [_parse_response], lines 107-123. *)
Definition parse_body (response_text : string) : exc json :=
  recipe_data <-e json_loads (clean_response response_text) ;;
  _ <-e check_required required_fields recipe_data ;;
  inr recipe_data.

(** [_parse_response], lines 104-135: a JSONDecodeError gives the
    fallback, any other exception is raised again as an [Exception]. *)
Definition _parse_response (response_text : string) : exc json :=
  match parse_body response_text with
  | inr recipe_data => inr recipe_data
  | inl e =>
      if is_JSONDecodeError e
      then inr (fallback_recipe response_text)
      else raise Exception_ ("Error parsing recipe: " ++ str_exn e)
  end.

(** [generate_recipe], lines 15-48. *)
Definition generate_recipe (ingredients : list string)
  (cuisine_type : option string)
  (dietary_restrictions : option (list string)) : Py json :=
  try_except
    (let prompt :=
       _build_prompt ingredients cuisine_type dietary_restrictions in
     response_text <- call_model prompt ;;
     recipe_data <- lift (_parse_response response_text) ;;
     ret (success_recipe recipe_data))
    (fun e => ret (failure e "Failed to generate recipe")).

(** [generate_multiple_recipes], lines 137-177. *)
Definition generate_multiple_recipes (ingredients : list string)
  (count : Z) : Py json :=
  try_except
    (let prompt := suggestions_prompt ingredients count in
     response_text <- call_model prompt ;;
     recipes_data <- lift (json_loads (clean_response response_text)) ;;
     recipes <- lift (py_get recipes_data "recipes" (JArr [])) ;;
     ret (success_recipes recipes))
    (fun e => ret (failure e "Failed to generate recipe suggestions")).
End WithLibraries.

End RecipeGenerator.

(* ------------------------------------------------------------------ *)
(** ** The Flask application (app.py) *)

Module RecipeRequest.
(** Lines 24-27. A field that may be [None] is an [option]. *)
Record t : Type := Build {
  ingredients : list string;
  cuisine_type : option string;
  dietary_restrictions : option (list string)
}.
End RecipeRequest.

Module MultipleRecipesRequest.
(** Lines 29-31. *)
Record t : Type := Build {
  ingredients : list string;
  count : Z
}.
End MultipleRecipesRequest.

(** One entry of [ValidationError.errors()], cut down to the field it is
    about and its error type. *)
Definition verror : Type := (string * string)%type.

Definition errors_of {A : Type} (r : list verror + A) : list verror :=
  match r with
  | inl errs => errs
  | inr _ => []
  end.

(** The body [jsonify] is given, and the status. *)
Definition response : Type := (json * nat)%type.

Definition no_data : json :=
  JObj [("success", JBool false); ("error", JStr "No data provided")].

Definition details_json (errs : list verror) : json :=
  JArr (map (fun e : verror =>
               JObj [("loc", JArr [JStr (fst e)]); ("type", JStr (snd e))])
          errs).

Definition validation_error (errs : list verror) : json :=
  JObj [("success", JBool false);
        ("error", JStr "Validation error");
        ("details", details_json errs)].

Definition internal_error (e : pyexn) : json :=
  JObj [("success", JBool false);
        ("error", JStr "Internal server error");
        ("message", JStr (str_exn e))].

Module App.
Section WithLibraries.
Variable json_loads : string -> exc json.
Variable generate_content : string -> exc string.
(** [Config.MAX_INGREDIENTS], read from the environment (20 when the
    variable is not set). *)
Variable MAX_INGREDIENTS : Z.
(** pydantic's validation of one value as a [str] and as an [int]. *)
Variable pyd_str : json -> option string.
Variable pyd_int : json -> option Z.
(** [str(e)] of the TypeError of [Model( **data)] when [data] is no
    mapping, given the name of the model. *)
Variable not_a_mapping : string -> json -> string.

Fixpoint str_items (l : list json) : option (list string) :=
  match l with
  | [] => Some []
  | v :: l' =>
      match pyd_str v, str_items l' with
      | Some s, Some ss => Some (s :: ss)
      | _, _ => None
      end
  end.

(** [ingredients: List[str] = Field(..., min_length=1,
    max_length=Config.MAX_INGREDIENTS)] *)
Definition validate_ingredients (data : list (string * json))
  : list verror + list string :=
  match lookup "ingredients" data with
  | None => inl [("ingredients", "missing")]
  | Some (JArr l) =>
      match str_items l with
      | None => inl [("ingredients", "string_type")]
      | Some items =>
          if (Z.of_nat (List.length items) <? 1)%Z
          then inl [("ingredients", "too_short")]
          else if (MAX_INGREDIENTS <? Z.of_nat (List.length items))%Z
          then inl [("ingredients", "too_long")]
          else inr items
      end
  | Some _ => inl [("ingredients", "list_type")]
  end.

(** [cuisine_type: Optional[str] = None] *)
Definition validate_cuisine_type (data : list (string * json))
  : list verror + option string :=
  match lookup "cuisine_type" data with
  | None => inr None
  | Some JNull => inr None
  | Some v =>
      match pyd_str v with
      | Some s => inr (Some s)
      | None => inl [("cuisine_type", "string_type")]
      end
  end.

(** [dietary_restrictions: Optional[List[str]] = []] *)
Definition validate_dietary_restrictions (data : list (string * json))
  : list verror + option (list string) :=
  match lookup "dietary_restrictions" data with
  | None => inr (Some [])
  | Some JNull => inr None
  | Some (JArr l) =>
      match str_items l with
      | Some items => inr (Some items)
      | None => inl [("dietary_restrictions", "string_type")]
      end
  | Some _ => inl [("dietary_restrictions", "list_type")]
  end.

(** [count: int = Field(default=3, ge=1, le=5)] *)
Definition validate_count (data : list (string * json))
  : list verror + Z :=
  match lookup "count" data with
  | None => inr 3%Z
  | Some v =>
      match pyd_int v with
      | None => inl [("count", "int_type")]
      | Some z =>
          if (z <? 1)%Z then inl [("count", "greater_than_equal")]
          else if (5 <? z)%Z then inl [("count", "less_than_equal")]
          else inr z
      end
  end.

(** [RecipeRequest( **data)] for a mapping: every field is validated and
    the errors of all of them are reported; other keys are ignored. *)
Definition validate_RecipeRequest (data : list (string * json))
  : list verror + RecipeRequest.t :=
  let i := validate_ingredients data in
  let c := validate_cuisine_type data in
  let d := validate_dietary_restrictions data in
  match i, c, d with
  | inr i', inr c', inr d' => inr (RecipeRequest.Build i' c' d')
  | _, _, _ => inl (errors_of i ++ errors_of c ++ errors_of d)%list
  end.

(** [MultipleRecipesRequest( **data)] for a mapping. *)
Definition validate_MultipleRecipesRequest (data : list (string * json))
  : list verror + MultipleRecipesRequest.t :=
  let i := validate_ingredients data in
  let c := validate_count data in
  match i, c with
  | inr i', inr c' => inr (MultipleRecipesRequest.Build i' c')
  | _, _ => inl (errors_of i ++ errors_of c)%list
  end.

(** The handler of POST /generate_recipe, lines 54-109, given what
    [request.get_json()] returned or raised ([JNull] is [None]). The
    two [logger] calls are kept for what their arguments evaluate. *)
Definition generate_recipe (request_json : exc json) : Py response :=
  try_except
    (data <- lift request_json ;;
     if negb (truthy data) then ret (no_data, 400)
     else
       match data with
       | JObj fields =>
           match validate_RecipeRequest fields with
           | inl errs => ret (validation_error errs, 400)
           | inr recipe_request =>
               result <-
                 RecipeGenerator.generate_recipe json_loads
                   generate_content
                   (RecipeRequest.ingredients recipe_request)
                   (RecipeRequest.cuisine_type recipe_request)
                   (RecipeRequest.dietary_restrictions recipe_request) ;;
               ok <- lift (py_getitem result "success") ;;
               if truthy ok then
                 recipe <- lift (py_getitem result "recipe") ;;
                 _ <- lift (py_get recipe "recipe_name" (JStr "Unknown")) ;;
                 ret (result, 200)
               else
                 _ <- lift (py_get result "error" (JStr "Unknown error")) ;;
                 ret (result, 500)
           end
       | _ => lift (raise TypeError (not_a_mapping "RecipeRequest" data))
       end)
    (fun e => ret (internal_error e, 500)).

(** The handler of POST /suggest_recipes, lines 112-165. *)
Definition suggest_recipes (request_json : exc json) : Py response :=
  try_except
    (data <- lift request_json ;;
     if negb (truthy data) then ret (no_data, 400)
     else
       match data with
       | JObj fields =>
           match validate_MultipleRecipesRequest fields with
           | inl errs => ret (validation_error errs, 400)
           | inr recipes_request =>
               result <-
                 RecipeGenerator.generate_multiple_recipes json_loads
                   generate_content
                   (MultipleRecipesRequest.ingredients recipes_request)
                   (MultipleRecipesRequest.count recipes_request) ;;
               ok <- lift (py_getitem result "success") ;;
               if truthy ok then
                 recipes <- lift (py_get result "recipes" (JArr [])) ;;
                 _ <- lift (py_len recipes) ;;
                 ret (result, 200)
               else
                 _ <- lift (py_get result "error" (JStr "Unknown error")) ;;
                 ret (result, 500)
           end
       | _ => lift (raise TypeError
                    (not_a_mapping "MultipleRecipesRequest" data))
       end)
    (fun e => ret (internal_error e, 500)).
End WithLibraries.

(** pydantic's conversions without any coercion: a [str] for a [str], an
    [int] for an [int]. *)
Definition strict_str (v : json) : option string :=
  match v with JStr s => Some s | _ => None end.

Definition strict_int (v : json) : option Z :=
  match v with JInt z => Some z | _ => None end.

Definition mapping_message (model : string) (v : json) : string :=
  "app." ++ model ++ "() argument after ** must be a mapping, not "
  ++ type_name v.
End App.

(* ------------------------------------------------------------------ *)
(** ** Vocabulary of the statements *)

(** A response wrapped in an opening fence line, tagged or not, and a
    closing fence line. *)
Definition fenced (tag body : string) : string :=
  fence ++ tag ++ nl ++ body ++ nl ++ fence.


(** The prompt up to the end of the schema. *)
Definition prompt_head (ingredients : list string) : string :=
  "You are a professional chef. Create a detailed recipe using the following ingredients: "
  ++ join ", " ingredients ++ nl ++ lines RecipeGenerator.recipe_format.

(** pydantic takes a [str] for a [str] and an [int] for an [int]; what it
    does with a value of another type is left open. *)
Definition str_accepted (pyd_str : json -> option string) : Prop :=
  forall s, pyd_str (JStr s) = Some s.

Definition int_accepted (pyd_int : json -> option Z) : Prop :=
  forall z, pyd_int (JInt z) = Some z.

(* ------------------------------------------------------------------ *)
(** ** The data of the concrete runs

    The upstream call is stubbed by a fixed answer, [json.loads] is the
    reference decoder, pydantic converts nothing and MAX_INGREDIENTS has its
    default. *)

Definition stub_model (answer : string) : string -> exc string :=
  fun _ => inr answer.

Definition default_max : Z := 20.

Definition prose : string := "Sorry, no recipe today.".

Definition sample_body : string :=
  dq ++ "recipe_name" ++ dq ++ ": " ++ dq ++ "Egg Fried Rice" ++ dq
  ++ ", " ++ dq ++ "ingredients" ++ dq ++ ": [{" ++ dq ++ "item" ++ dq ++ ": "
  ++ dq ++ "egg" ++ dq ++ ", " ++ dq ++ "quantity" ++ dq ++ ": 2}], "
  ++ dq ++ "instructions" ++ dq ++ ": [" ++ dq ++ "Fry." ++ dq ++ "], "
  ++ dq ++ "chef_note" ++ dq ++ ": null".

Definition sample_fields : list (string * json) :=
  [("recipe_name", JStr "Egg Fried Rice");
   ("ingredients", JArr [JObj [("item", JStr "egg"); ("quantity", JInt 2)]]);
   ("instructions", JArr [JStr "Fry."]);
   ("chef_note", JNull)].

(** A recipe whose name holds a fence of its own. *)
Definition ticks_text : string :=
  "{" ++ dq ++ "recipe_name" ++ dq ++ ": " ++ dq ++ "a```b" ++ dq ++ ", "
  ++ dq ++ "ingredients" ++ dq ++ ": [], "
  ++ dq ++ "instructions" ++ dq ++ ": [" ++ dq ++ "Mix ``` well" ++ dq ++ "]}".

Definition ticks_recipe : json :=
  JObj [("recipe_name", JStr "a```b");
        ("ingredients", JArr []);
        ("instructions", JArr [JStr "Mix ``` well"])].

(** A recipe without its instructions. *)
Definition no_steps_text : string :=
  "{" ++ dq ++ "recipe_name" ++ dq ++ ": " ++ dq ++ "Soup" ++ dq ++ ", "
  ++ dq ++ "ingredients" ++ dq ++ ": []}".


(** An answer to the multi-recipe prompt under another key. *)
Definition suggestions_text : string :=
  "{" ++ dq ++ "suggestions" ++ dq ++ ": [{" ++ dq ++ "recipe_name" ++ dq
  ++ ": " ++ dq ++ "Omelette" ++ dq ++ "}]}".

Definition suggestions_fields : list (string * json) :=
  [("suggestions", JArr [JObj [("recipe_name", JStr "Omelette")]])].

(** The body of POST /suggest_recipes with a count of 7. *)
Definition count_seven : list (string * json) :=
  [("ingredients", JArr [JStr "egg"]); ("count", JInt 7)].

(* ------------------------------------------------------------------ *)
(** ** The configuration (config.py) *)

(** [c.lower()] for one character below 256: A..Z and the capital letters
    of Latin-1. *)
Definition lower_char (c : ascii) : ascii :=
  let n := nat_of_ascii c in
  if (((65 <=? n) && (n <=? 90)) || ((192 <=? n) && (n <=? 214))
      || ((216 <=? n) && (n <=? 222)))%nat
  then ascii_of_nat (n + 32) else c.

(** [s.lower()] *)
Fixpoint lower (s : string) : string :=
  match s with
  | EmptyString => EmptyString
  | String c s' => String (lower_char c) (lower s')
  end.

(** The blanks [int] skips around a literal: TAB..CR and space, and the
    blanks above 127 (NEL and NBSP below 256); FS..US are not skipped. *)
Definition is_int_space (c : ascii) : bool :=
  let n := nat_of_ascii c in
  (((9 <=? n) && (n <=? 13)) || (n =? 32) || (n =? 133) || (n =? 160))%nat.

Fixpoint skip_int_space (s : string) : string :=
  match s with
  | EmptyString => EmptyString
  | String c s' => if is_int_space c then skip_int_space s' else s
  end.

(** The digits of a literal after its first digit: a digit, or one
    underscore followed by a digit. *)
Fixpoint int_digits (acc : Z) (s : string) : option (Z * string) :=
  match s with
  | String c s' =>
      if is_digit c then int_digits (10 * acc + digit_val c)%Z s'
      else if Ascii.eqb c "_" then
        match s' with
        | String d s'' =>
            if is_digit d then int_digits (10 * acc + digit_val d)%Z s''
            else None
        | EmptyString => None
        end
      else Some (acc, s)
  | EmptyString => Some (acc, s)
  end.

(** An unsigned literal followed by blanks only. *)
Definition int_magnitude (s : string) : option Z :=
  match s with
  | String c s' =>
      if is_digit c then
        match int_digits (digit_val c) s' with
        | Some (z, rest) =>
            match skip_int_space rest with
            | EmptyString => Some z
            | _ => None
            end
        | None => None
        end
      else None
  | EmptyString => None
  end.

(** [int(s)] for a [str], [None] standing for the ValueError. The limit the
    interpreter sets on the number of digits is not modelled. *)
Definition py_int (s : string) : option Z :=
  match skip_int_space s with
  | String c s' =>
      if Ascii.eqb c "-" then option_map Z.opp (int_magnitude s')
      else if Ascii.eqb c "+" then int_magnitude s'
      else int_magnitude (String c s')
  | EmptyString => None
  end.

Module Config.

(** The class attributes, lines 10-22. *)
Record t : Type := Build {
  SECRET_KEY : string;
  DEBUG : bool;
  HOST : string;
  PORT : Z;
  GEMINI_API_KEY : option string;
  GEMINI_MODEL : string;
  MAX_INGREDIENTS : Z;
  REQUEST_TIMEOUT : Z
}.

Section WithEnvironment.
(** [os.getenv(name)] once [load_dotenv()] has run. *)
Variable environ : string -> option string.
(** [str(e)] of the ValueError of [int(s)]. *)
Variable invalid_literal : string -> string.

(** [os.getenv(name, default)] with a default that is a string *)
Definition getenv (name default : string) : string :=
  match environ name with
  | Some v => v
  | None => default
  end.

(** [int(os.getenv(name, default))] with a default that is an int *)
Definition getenv_int (name : string) (default : Z) : exc Z :=
  match environ name with
  | Some v =>
      match py_int v with
      | Some z => inr z
      | None => raise ValueError (invalid_literal v)
      end
  | None => inr default
  end.

(** The body of the class, run when the module is imported. *)
Definition load : exc t :=
  let secret_key := getenv "SECRET_KEY" "your-secret-key-here" in
  let debug := String.eqb (lower (getenv "DEBUG" "True")) "true" in
  let host := getenv "HOST" "0.0.0.0" in
  port <-e getenv_int "PORT" 5000 ;;
  let gemini_api_key := environ "GEMINI_API_KEY" in
  let gemini_model := getenv "GEMINI_MODEL" "gemini-2.5-flash" in
  max_ingredients <-e getenv_int "MAX_INGREDIENTS" 20 ;;
  request_timeout <-e getenv_int "REQUEST_TIMEOUT" 30 ;;
  inr (Build secret_key debug host port gemini_api_key gemini_model
         max_ingredients request_timeout).
End WithEnvironment.

(** [Config.validate()], lines 24-29. *)
Definition validate (c : t) : exc bool :=
  if negb (match GEMINI_API_KEY c with
           | Some k => negb (String.eqb k EmptyString)
           | None => false
           end)
  then raise ValueError
         "GEMINI_API_KEY is required. Please set it in .env file"
  else inr true.

End Config.

(** What importing app.py does before the routes are declared (lines 6 and
    18): the configuration is read, then validated. *)
Definition startup (environ : string -> option string)
  (invalid_literal : string -> string) : exc Config.t :=
  config <-e Config.load environ invalid_literal ;;
  _ <-e Config.validate config ;;
  inr config.

(** An environment given by its bindings. *)
Fixpoint env_of (bindings : list (string * string)) (name : string)
  : option string :=
  match bindings with
  | [] => None
  | (k, v) :: rest => if String.eqb name k then Some v else env_of rest name
  end.

(** [str(e)] of the ValueError of [int(s)], for a text that [repr] writes
    as it is between two quotes. *)
Definition literal_message (s : string) : string :=
  "invalid literal for int() with base 10: '" ++ s ++ "'".

(* ------------------------------------------------------------------ *)
(** ** More vocabulary and data *)

(** The value of the key success in a body, when it is a bool. *)
Definition success_flag (body : json) : option bool :=
  match body with
  | JObj o =>
      match lookup "success" o with
      | Some (JBool b) => Some b
      | _ => None
      end
  | _ => None
  end.

(** An answer that is a list of the three field names. *)
Definition names_text : string :=
  "[" ++ dq ++ "recipe_name" ++ dq ++ ", " ++ dq ++ "ingredients" ++ dq
  ++ ", " ++ dq ++ "instructions" ++ dq ++ "]".

Definition names_list : json :=
  JArr [JStr "recipe_name"; JStr "ingredients"; JStr "instructions"].

(** Answers to the multi-recipe prompt: a proper one, one whose recipes are
    a number, and one that is a list. *)
Definition recipes_text : string :=
  "{" ++ dq ++ "recipes" ++ dq ++ ": [{" ++ dq ++ "recipe_name" ++ dq
  ++ ": " ++ dq ++ "Omelette" ++ dq ++ "}]}".

Definition recipes_list : json :=
  JArr [JObj [("recipe_name", JStr "Omelette")]].

Definition recipes_number_text : string :=
  "{" ++ dq ++ "recipes" ++ dq ++ ": 5}".

Definition bare_list_text : string := "[1, 2]".

(** A request of one ingredient, and the same with the restrictions given
    as null. *)
Definition egg_request : list (string * json) :=
  [("ingredients", JArr [JStr "egg"])].

Definition egg_null_request : list (string * json) :=
  [("ingredients", JArr [JStr "egg"]); ("dietary_restrictions", JNull)].

(** What the upstream call raises when the quota is spent. *)
Definition quota_error : pyexn :=
  PyExn (OtherError "ResourceExhausted") "429 Quota exceeded".

Definition failing_model : string -> exc string := fun _ => inl quota_error.

(** What a handler may answer, given the prompts sent before it ran: a body
    with its status, 200 with success true or 400 or 500 with success false,
    and at most one more prompt sent. *)
Definition answers_properly (sent : list string)
  (outcome : exc response * list string) : Prop :=
  exists body status sent',
    outcome = (inr (body, status), sent')
    /\ ((status = 200 /\ success_flag body = Some true)
        \/ ((status = 400 \/ status = 500) /\ success_flag body = Some false))
    /\ (sent' = sent \/ exists prompt, sent' = (sent ++ [prompt])%list).

(** The prompts a validated request is turned into. *)
Definition prompt_of (r : RecipeRequest.t) : string :=
  RecipeGenerator._build_prompt (RecipeRequest.ingredients r)
    (RecipeRequest.cuisine_type r) (RecipeRequest.dietary_restrictions r).

Definition suggestions_prompt_of (r : MultipleRecipesRequest.t) : string :=
  RecipeGenerator.suggestions_prompt (MultipleRecipesRequest.ingredients r)
    (MultipleRecipesRequest.count r).

(** The two requests of one ingredient, validated. *)
Definition egg_recipe_request : RecipeRequest.t :=
  RecipeRequest.Build ["egg"] None (Some []).

Definition egg_suggestions_request : MultipleRecipesRequest.t :=
  MultipleRecipesRequest.Build ["egg"] 3.

(** The bound on the ingredients an environment asks for. *)
Definition configured_max (environ : string -> option string) : option Z :=
  match environ "MAX_INGREDIENTS" with
  | Some v => py_int v
  | None => Some 20%Z
  end.


(** An environment with a key, a bound of 5 written with blanks around it,
    and the debug switch in capitals. *)
Definition sample_environ : string -> option string :=
  env_of [("GEMINI_API_KEY", "secret");
          ("MAX_INGREDIENTS", " 5 ");
          ("DEBUG", "TRUE")].

Definition sample_config : Config.t :=
  Config.Build "your-secret-key-here" true "0.0.0.0" 5000 (Some "secret")
    "gemini-2.5-flash" 5 30.

(* ------------------------------------------------------------------ *)
(** ** Checks of the definitions on small inputs *)

Example strip_ex :
  strip ("  " ++ nl ++ "a b " ++ nl) = "a b".
Proof. reflexivity. Qed.

Example sub_fences_ex :
  sub_close_fence (sub_open_fence ("```json" ++ nl ++ "{}" ++ nl ++ "```"))
  = "{}".
Proof. reflexivity. Qed.

Example sub_close_inner_ex :
  sub_close_fence ("a```" ++ nl ++ "```") = "a```".
Proof. reflexivity. Qed.

Example str_of_int_ex :
  (str_of_int 3, str_of_int 0, str_of_int (-12)) = ("3", "0", "-12").
Proof. reflexivity. Qed.

Example json_loads_ref_sample :
  json_loads_ref ("{" ++ sample_body ++ "}") = inr (JObj sample_fields).
Proof. vm_compute. reflexivity. Qed.

Example json_loads_ref_prose :
  json_loads_ref prose
  = raise JSONDecodeError expecting_value.
Proof. vm_compute. reflexivity. Qed.

Example json_loads_ref_misc :
  json_loads_ref (" [1, -20, true, " ++ dq ++ "a\nA" ++ dq ++ ", {}] ")
  = inr (JArr [JInt 1; JInt (-20); JBool true;
               JStr ("a" ++ nl ++ "A"); JObj []]).
Proof. vm_compute. reflexivity. Qed.

(* ------------------------------------------------------------------ *)
(** ** Properties of the string operations *)

Lemma append_nil_r (s : string) : s ++ EmptyString = s.
Proof. induction s as [|c s IH]; simpl; [reflexivity | now rewrite IH]. Qed.

Lemma append_assoc (a b c : string) : (a ++ b) ++ c = a ++ (b ++ c).
Proof. induction a as [|x a IH]; simpl; [reflexivity | now rewrite IH]. Qed.

Lemma length_append (a b : string) :
  String.length (a ++ b) = String.length a + String.length b.
Proof. induction a as [|x a IH]; simpl; [reflexivity | now rewrite IH]. Qed.

Lemma drop_prefix_sound (p s r : string) :
  drop_prefix p s = Some r -> s = p ++ r.
Proof.
  revert s; induction p as [|a p IH]; intros s H; simpl in *.
  - now inversion H.
  - destruct s as [|b s]; [discriminate|].
    destruct (Ascii.eqb a b) eqn:E; [|discriminate].
    apply Ascii.eqb_eq in E; subst b. now rewrite (IH _ H).
Qed.

Lemma drop_prefix_app (p r : string) : drop_prefix p (p ++ r) = Some r.
Proof.
  induction p as [|a p IH]; simpl; [reflexivity|].
  now rewrite Ascii.eqb_refl.
Qed.

(** What [lstrip] returns is empty or starts with a character that is no
    blank. *)
Lemma lstrip_head (s : string) :
  lstrip s = EmptyString \/
  exists c r, lstrip s = String c r /\ isspace c = false.
Proof.
  induction s as [|c s IH]; simpl; [now left|].
  destruct (isspace c) eqn:E; [exact IH|].
  right; exists c, s; now split.
Qed.

Lemma lstrip_nonspace (c : ascii) (s : string) :
  isspace c = false -> lstrip (String c s) = String c s.
Proof. intros H; simpl; now rewrite H. Qed.

Lemma lstrip_app_blank (s x : string) :
  lstrip s = EmptyString -> lstrip (s ++ x) = lstrip x.
Proof.
  induction s as [|c s IH]; simpl; [reflexivity|].
  destruct (isspace c); [exact IH | discriminate].
Qed.

Lemma lstrip_app_nonblank (s x : string) :
  lstrip s <> EmptyString -> lstrip (s ++ x) = lstrip s ++ x.
Proof.
  induction s as [|c s IH]; simpl; [congruence|].
  destruct (isspace c); [exact IH | reflexivity].
Qed.

Lemma rstrip_cons (c : ascii) (s : string) :
  rstrip (String c s) <> EmptyString ->
  rstrip (String c s) = String c (rstrip s).
Proof.
  simpl. destruct (rstrip s) as [|a r]; [|reflexivity].
  destruct (isspace c); [congruence | reflexivity].
Qed.

Lemma rstrip_nonspace (c : ascii) (s : string) :
  isspace c = false -> rstrip (String c s) = String c (rstrip s).
Proof.
  intros H; simpl. destruct (rstrip s); [now rewrite H | reflexivity].
Qed.

Lemma rstrip_idem (s : string) : rstrip (rstrip s) = rstrip s.
Proof.
  induction s as [|c s IH]; [reflexivity|].
  simpl. destruct (rstrip s) as [|a r] eqn:E.
  - destruct (isspace c) eqn:Ec; [reflexivity|].
    simpl. now rewrite Ec.
  - change (rstrip (String c (String a r))
            = String c (String a r)).
    simpl. simpl in IH. destruct (rstrip r) as [|b r'].
    + destruct (isspace a); [discriminate|].
      now rewrite IH.
    + now rewrite IH.
Qed.

(** A text whose last character is no blank is its own [rstrip]. *)
Lemma rstrip_snoc (s : string) (c : ascii) :
  isspace c = false ->
  rstrip (s ++ String c EmptyString) = s ++ String c EmptyString.
Proof.
  intros H. induction s as [|a s IH]; simpl.
  - now rewrite H.
  - rewrite IH. destruct s; reflexivity.
Qed.

Lemma strip_idem (s : string) : strip (strip s) = strip s.
Proof.
  unfold strip.
  assert (L : lstrip (rstrip (lstrip s)) = rstrip (lstrip s)).
  { destruct (lstrip_head s) as [E | (c & r & E & Hc)]; rewrite E.
    - reflexivity.
    - rewrite (rstrip_nonspace _ _ Hc). now apply lstrip_nonspace. }
  rewrite L. apply rstrip_idem.
Qed.

(** A text that starts and ends with a character that is no blank is its
    own [strip]. *)
Lemma strip_fixed (a b : ascii) (s : string) :
  isspace a = false -> isspace b = false ->
  strip (String a (s ++ String b EmptyString))
  = String a (s ++ String b EmptyString).
Proof.
  intros Ha Hb. unfold strip. rewrite (lstrip_nonspace _ _ Ha).
  exact (rstrip_snoc (String a s) _ Hb).
Qed.

(** *** The closing fence *)

Lemma match_close_fence_blank (u : string) :
  rstrip u = EmptyString ->
  match_close_fence (u ++ nl ++ fence) = Some EmptyString.
Proof.
  intros H. unfold match_close_fence.
  assert (L : lstrip u = EmptyString).
  { clear -H. induction u as [|c u IH]; [reflexivity|].
    simpl in *. destruct (rstrip u); [|discriminate].
    destruct (isspace c); [now apply IH | discriminate]. }
  rewrite (lstrip_app_blank _ _ L). reflexivity.
Qed.

Lemma rstrip_blank_lstrip (u : string) :
  lstrip u = EmptyString -> rstrip u = EmptyString.
Proof.
  induction u as [|c u IH]; [reflexivity|].
  simpl. destruct (isspace c) eqn:E; [|discriminate].
  intros H. rewrite (IH H). reflexivity.
Qed.

Lemma match_close_fence_nonblank (u : string) :
  rstrip u <> EmptyString ->
  match_close_fence (u ++ nl ++ fence) = None.
Proof.
  intros H. unfold match_close_fence.
  assert (L : lstrip u <> EmptyString).
  { intros E. apply H. now apply rstrip_blank_lstrip. }
  rewrite (lstrip_app_nonblank _ _ L).
  destruct (drop_prefix fence (lstrip u ++ nl ++ fence)) as [tail|] eqn:D;
    [|reflexivity].
  apply drop_prefix_sound in D.
  apply (f_equal String.length) in D.
  rewrite !length_append in D.
  destruct (lstrip u) as [|c r]; [congruence|].
  destruct tail as [|x [|y tail]]; simpl in D; try lia.
  unfold nl. cbn [String.eqb orb].
  destruct (Ascii.eqb x "010"); reflexivity.
Qed.

(** The second substitution removes the closing fence line and the blanks
    before it, whatever the body holds. *)
Lemma sub_close_fence_line (u : string) :
  sub_close_fence (u ++ nl ++ fence) = rstrip u.
Proof.
  induction u as [|c u IH]; [reflexivity|].
  destruct (rstrip (String c u)) as [|a r] eqn:E.
  - change (String c u ++ nl ++ fence) with (String c (u ++ nl ++ fence)).
    cbn [sub_close_fence].
    change (String c (u ++ nl ++ fence)) with (String c u ++ nl ++ fence).
    now rewrite (match_close_fence_blank _ E).
  - assert (N : rstrip (String c u) <> EmptyString) by (rewrite E; discriminate).
    rewrite <- E, (rstrip_cons _ _ N).
    change (String c u ++ nl ++ fence) with (String c (u ++ nl ++ fence)).
    cbn [sub_close_fence].
    change (String c (u ++ nl ++ fence)) with (String c u ++ nl ++ fence).
    rewrite (match_close_fence_nonblank _ N).
    change (String c u ++ nl ++ fence) with (String c (u ++ nl ++ fence)).
    now rewrite IH.
Qed.

Lemma prefix_app (p r : string) : prefix p (p ++ r) = true.
Proof.
  induction p as [|a p IH]; simpl; [now destruct r|].
  destruct (ascii_dec a a); [exact IH | congruence].
Qed.

Lemma rstrip_ends_fence (s : string) : rstrip (s ++ fence) = s ++ fence.
Proof.
  change fence with ("``" ++ String "`" EmptyString).
  rewrite <- append_assoc. now apply rstrip_snoc.
Qed.

Lemma strip_fenced (tag t : string) : strip (fenced tag t) = fenced tag t.
Proof.
  unfold strip.
  assert (L : lstrip (fenced tag t) = fenced tag t) by reflexivity.
  rewrite L. unfold fenced.
  rewrite <- (append_assoc t), <- (append_assoc nl), <- (append_assoc tag),
    <- (append_assoc fence).
  apply rstrip_ends_fence.
Qed.

Lemma sub_open_fence_fenced (tag t : string) :
  tag = "json" \/ tag = EmptyString ->
  sub_open_fence (fenced tag t) = lstrip (t ++ nl ++ fence).
Proof.
  intros [-> | ->]; reflexivity.
Qed.

(** Cleaning a fenced text gives the body, stripped: what the body holds
    between its first and last characters is left as it is. *)
Lemma clean_response_fenced (tag t : string) :
  tag = "json" \/ tag = EmptyString ->
  clean_response (fenced tag t) = strip t.
Proof.
  intros Htag. unfold clean_response.
  rewrite strip_fenced.
  assert (P : startswith fence (fenced tag t) = true)
    by (unfold startswith, fenced; apply prefix_app).
  rewrite P, (sub_open_fence_fenced _ _ Htag).
  destruct (lstrip t) as [|c r] eqn:E.
  - rewrite (lstrip_app_blank _ _ E).
    unfold strip at 2. rewrite E. reflexivity.
  - assert (N : lstrip t <> EmptyString) by (rewrite E; discriminate).
    rewrite (lstrip_app_nonblank _ _ N), sub_close_fence_line.
    change (rstrip (lstrip t)) with (strip t). apply strip_idem.
Qed.

Lemma clean_response_plain (t : string) :
  startswith fence (strip t) = false -> clean_response t = strip t.
Proof.
  intros H. unfold clean_response. rewrite H. apply strip_idem.
Qed.

(** The text of an object, as [json.dumps] writes a dict, is left as it is
    by the cleaning. *)
Lemma clean_response_object (body : string) :
  clean_response ("{" ++ body ++ "}") = "{" ++ body ++ "}".
Proof.
  assert (S : strip ("{" ++ body ++ "}") = "{" ++ body ++ "}")
    by (apply (strip_fixed "{" "}" body); reflexivity).
  unfold clean_response. rewrite S.
  change (startswith fence ("{" ++ body ++ "}")) with false.
  exact S.
Qed.

Lemma slice_to_prefix (n : nat) (s : string) : prefix (slice_to n s) s = true.
Proof.
  unfold slice_to. revert s; induction n as [|n IH]; intros s.
  - destruct s; reflexivity.
  - destruct s as [|c s]; [reflexivity|].
    simpl. destruct (ascii_dec c c); [apply IH | congruence].
Qed.

Lemma slice_to_length (n : nat) (s : string) :
  String.length (slice_to n s) = Nat.min n (String.length s).
Proof.
  unfold slice_to. revert s; induction n as [|n IH]; intros s.
  - destruct s; reflexivity.
  - destruct s as [|c s]; [reflexivity|].
    simpl. now rewrite IH.
Qed.

(** The reference decoder rejects every text that starts with a backtick,
    as [json.loads] does: no JSON text starts with a fence. *)
Lemma json_loads_ref_backtick (s : string) :
  json_loads_ref (String "`" s) = raise JSONDecodeError expecting_value.
Proof. reflexivity. Qed.

Lemma json_loads_ref_not_fenced (s : string) (v : json) :
  json_loads_ref s = inr v -> startswith fence s = false.
Proof.
  destruct s as [|c s]; [reflexivity|].
  destruct (Ascii.eqb_spec c "`") as [-> | N].
  - rewrite json_loads_ref_backtick. discriminate.
  - intros _. unfold startswith, fence. cbn [prefix].
    destruct (ascii_dec "`" c); [congruence | reflexivity].
Qed.

(* ------------------------------------------------------------------ *)
(** ** Properties of the recipe generator *)

Section GeneratorProperties.
Variable json_loads : string -> exc json.
Variable generate_content : string -> exc string.

Local Abbreviation _parse_response :=
  (RecipeGenerator._parse_response json_loads).
Local Abbreviation parse_body := (RecipeGenerator.parse_body json_loads).
Local Abbreviation generate_recipe :=
  (RecipeGenerator.generate_recipe json_loads generate_content).
Local Abbreviation generate_multiple_recipes :=
  (RecipeGenerator.generate_multiple_recipes json_loads generate_content).
Local Abbreviation _build_prompt := RecipeGenerator._build_prompt.
Local Abbreviation suggestions_prompt := RecipeGenerator.suggestions_prompt.
Local Abbreviation required_fields := RecipeGenerator.required_fields.
Local Abbreviation check_required := RecipeGenerator.check_required.

Lemma check_required_dict (fields : list string) (o : list (string * json)) :
  check_required fields (JObj o)
  = match find (fun field => negb (has_key field o)) fields with
    | Some field => raise ValueError ("Missing required field: " ++ field)
    | None => inr tt
    end.
Proof.
  induction fields as [|f fields IH]; [reflexivity|].
  simpl. destruct (has_key f o); simpl; [exact IH | reflexivity].
Qed.

(** The field check never raises a JSONDecodeError. *)
Lemma check_required_class (fields : list string) (v : json) (e : pyexn) :
  check_required fields v = inl e -> is_JSONDecodeError e = false.
Proof.
  induction fields as [|f fields IH]; [discriminate|].
  simpl. destruct (py_in f v) as [e'|b] eqn:E; simpl.
  - intros H; inversion H; subst e'.
    destruct v; simpl in E; try discriminate;
      inversion E; reflexivity.
  - destruct b; simpl; [exact IH|].
    intros H; inversion H; reflexivity.
Qed.

(** Once the cleaned text decodes, the parser's answer depends on the
    decoded value only. *)
Lemma parse_response_decoded (text : string) (v : json) :
  json_loads (clean_response text) = inr v ->
  _parse_response text
  = match check_required required_fields v with
    | inr _ => inr v
    | inl e => raise Exception_ ("Error parsing recipe: " ++ str_exn e)
    end.
Proof.
  intros H. unfold RecipeGenerator._parse_response,
    RecipeGenerator.parse_body. rewrite H. cbn [ebind].
  destruct (check_required required_fields v) as [e|[]] eqn:E;
    cbn [ebind]; [|reflexivity].
  now rewrite (check_required_class _ _ _ E).
Qed.

Lemma generate_recipe_run (ingredients : list string)
  (cuisine_type : option string)
  (dietary_restrictions : option (list string)) (sent : list string) :
  let prompt := _build_prompt ingredients cuisine_type dietary_restrictions in
  generate_recipe ingredients cuisine_type dietary_restrictions sent
  = (inr match generate_content prompt with
         | inl e => RecipeGenerator.failure e "Failed to generate recipe"
         | inr text =>
             match _parse_response text with
             | inl e => RecipeGenerator.failure e "Failed to generate recipe"
             | inr recipe => RecipeGenerator.success_recipe recipe
             end
         end,
     (sent ++ [prompt])%list).
Proof.
  intros prompt.
  unfold RecipeGenerator.generate_recipe, try_except, bind,
    RecipeGenerator.call_model, lift, ret.
  fold prompt. destruct (generate_content prompt) as [e|text];
    [reflexivity|].
  destruct (_parse_response text); reflexivity.
Qed.

Lemma generate_multiple_recipes_run (ingredients : list string) (count : Z)
  (sent : list string) :
  let prompt := suggestions_prompt ingredients count in
  let message := "Failed to generate recipe suggestions" in
  generate_multiple_recipes ingredients count sent
  = (inr match generate_content prompt with
         | inl e => RecipeGenerator.failure e message
         | inr text =>
             match json_loads (clean_response text) with
             | inl e => RecipeGenerator.failure e message
             | inr recipes_data =>
                 match py_get recipes_data "recipes" (JArr []) with
                 | inl e => RecipeGenerator.failure e message
                 | inr recipes => RecipeGenerator.success_recipes recipes
                 end
             end
         end,
     (sent ++ [prompt])%list).
Proof.
  intros prompt message.
  unfold RecipeGenerator.generate_multiple_recipes, try_except, bind,
    RecipeGenerator.call_model, lift, ret.
  fold prompt. destruct (generate_content prompt) as [e|text];
    [reflexivity|].
  destruct (json_loads (clean_response text)) as [e|data]; [reflexivity|].
  destruct (py_get data "recipes" (JArr [])); reflexivity.
Qed.

(** C2. When the upstream model answers with a text that [json.loads]
    rejects (after the cleaning), [generate_recipe] returns success=true
    with the fallback recipe: recipe_name "Generated Recipe", description
    the first 200 characters of the raw text, no ingredient, the raw text
    as the only instruction, and the error marker. *)
Theorem invalid_json_gives_fallback (ingredients : list string)
  (cuisine_type : option string)
  (dietary_restrictions : option (list string))
  (response_text : string) (e : pyexn) (sent : list string) :
  let prompt := _build_prompt ingredients cuisine_type dietary_restrictions in
  generate_content prompt = inr response_text ->
  json_loads (clean_response response_text) = inl e ->
  is_JSONDecodeError e = true ->
  generate_recipe ingredients cuisine_type dietary_restrictions sent
  = (inr (JObj [("success", JBool true);
                ("recipe",
                 JObj [("recipe_name", JStr "Generated Recipe");
                       ("description", JStr (slice_to 200 response_text));
                       ("ingredients", JArr []);
                       ("instructions", JArr [JStr response_text]);
                       ("error", JStr "Failed to parse structured recipe")])]),
     (sent ++ [prompt])%list)
  /\ prefix (slice_to 200 response_text) response_text = true
  /\ String.length (slice_to 200 response_text)
     = Nat.min 200 (String.length response_text).
Proof.
  intros prompt Hgen Hloads Hcls.
  split; [|split; [apply slice_to_prefix | apply slice_to_length]].
  rewrite generate_recipe_run. fold prompt. rewrite Hgen.
  unfold RecipeGenerator._parse_response, RecipeGenerator.parse_body.
  rewrite Hloads. cbn [ebind]. rewrite Hcls. reflexivity.
Qed.

(** C3. A text of the shape [json.dumps] gives a dict, which the JSON
    library decodes to a recipe object holding the three required fields,
    is parsed to that very object: every field, listed or not, in its
    place and with its value. *)
Theorem parse_of_serialized_recipe (body : string)
  (recipe : list (string * json)) :
  json_loads ("{" ++ body ++ "}") = inr (JObj recipe) ->
  has_key "recipe_name" recipe = true ->
  has_key "ingredients" recipe = true ->
  has_key "instructions" recipe = true ->
  _parse_response ("{" ++ body ++ "}") = inr (JObj recipe).
Proof.
  intros Hloads Hn Hi Hs.
  rewrite (parse_response_decoded _ (JObj recipe)).
  - rewrite check_required_dict. simpl. now rewrite Hn, Hi, Hs.
  - now rewrite clean_response_object.
Qed.

(** C4. For a JSON text (the library decodes it, and as every JSON text it
    does not start with a fence), the text between an opening fence line,
    tagged json or bare, and a closing fence line is cleaned to the same
    text and parsed to the same result as the text alone. *)
Theorem fenced_parses_as_unfenced (tag text : string) (v : json) :
  tag = "json" \/ tag = EmptyString ->
  json_loads (strip text) = inr v ->
  startswith fence (strip text) = false ->
  clean_response (fence ++ tag ++ nl ++ text ++ nl ++ fence)
  = clean_response text
  /\ _parse_response (fence ++ tag ++ nl ++ text ++ nl ++ fence)
     = _parse_response text.
Proof.
  intros Htag Hloads Hplain.
  pose proof (clean_response_fenced tag text Htag) as F.
  pose proof (clean_response_plain text Hplain) as P.
  unfold fenced in F. split; [congruence|].
  rewrite (parse_response_decoded _ v), (parse_response_decoded text v);
    congruence.
Qed.

Lemma check_required_raises (fields : list string) (v : json)
  (field : string) :
  In field fields -> py_in field v <> inr true ->
  exists e, check_required fields v = inl e.
Proof.
  induction fields as [|f fields IH]; intros Hin Hmiss; [contradiction|].
  simpl. destruct (py_in f v) as [e|b] eqn:E; simpl.
  - now exists e.
  - destruct b; simpl; [|eexists; reflexivity].
    destruct Hin as [-> | Hin]; [congruence | now apply IH].
Qed.


(** C6. Neither orchestrator ever raises: whatever the upstream call, the
    decoder or the parser raised is returned as success=false with the
    text of the exception and the fixed message of the orchestrator, and
    exactly one prompt has been sent. *)
Theorem orchestrators_catch_everything (ingredients : list string)
  (cuisine_type : option string)
  (dietary_restrictions : option (list string)) (count : Z)
  (sent : list string) :
  generate_recipe ingredients cuisine_type dietary_restrictions sent
  = (inr match generate_content
                 (_build_prompt ingredients cuisine_type
                    dietary_restrictions) with
         | inl e =>
             JObj [("success", JBool false); ("error", JStr (str_exn e));
                   ("message", JStr "Failed to generate recipe")]
         | inr text =>
             match _parse_response text with
             | inl e =>
                 JObj [("success", JBool false); ("error", JStr (str_exn e));
                       ("message", JStr "Failed to generate recipe")]
             | inr recipe =>
                 JObj [("success", JBool true); ("recipe", recipe)]
             end
         end,
     (sent ++ [_build_prompt ingredients cuisine_type
                 dietary_restrictions])%list)
  /\ generate_multiple_recipes ingredients count sent
     = (inr match generate_content (suggestions_prompt ingredients count) with
            | inl e =>
                JObj [("success", JBool false); ("error", JStr (str_exn e));
                      ("message",
                       JStr "Failed to generate recipe suggestions")]
            | inr text =>
                match json_loads (clean_response text) with
                | inl e =>
                    JObj [("success", JBool false);
                          ("error", JStr (str_exn e));
                          ("message",
                           JStr "Failed to generate recipe suggestions")]
                | inr recipes_data =>
                    match py_get recipes_data "recipes" (JArr []) with
                    | inl e =>
                        JObj [("success", JBool false);
                              ("error", JStr (str_exn e));
                              ("message",
                               JStr "Failed to generate recipe suggestions")]
                    | inr recipes =>
                        JObj [("success", JBool true); ("recipes", recipes)]
                    end
                end
            end,
        (sent ++ [suggestions_prompt ingredients count])%list).
Proof.
  split.
  - exact (generate_recipe_run ingredients cuisine_type
             dietary_restrictions sent).
  - exact (generate_multiple_recipes_run ingredients count sent).
Qed.

(** C1, as the code has it. When the cleaned response decodes to an
    object without the key recipes, [generate_multiple_recipes] raises
    nothing and returns success=true with an empty list of recipes. *)
Theorem missing_recipes_defaults_to_empty (ingredients : list string)
  (count : Z) (response_text : string) (recipes_data : list (string * json))
  (sent : list string) :
  let prompt := suggestions_prompt ingredients count in
  generate_content prompt = inr response_text ->
  json_loads (clean_response response_text) = inr (JObj recipes_data) ->
  lookup "recipes" recipes_data = None ->
  generate_multiple_recipes ingredients count sent
  = (inr (JObj [("success", JBool true); ("recipes", JArr [])]),
     (sent ++ [prompt])%list).
Proof.
  intros prompt Hgen Hloads Hkey.
  rewrite generate_multiple_recipes_run. fold prompt.
  rewrite Hgen, Hloads. simpl. now rewrite Hkey.
Qed.
End GeneratorProperties.

(* ------------------------------------------------------------------ *)
(** ** Properties of the prompt builder *)

Example join_ex : join ", " ["egg"; "rice"; "soy sauce"] = "egg, rice, soy sauce".
Proof. reflexivity. Qed.

(** C8. The prompt is the head with the schema, then the style clause that
    names the cuisine exactly when a cuisine that is not empty is given,
    then the clause with the restrictions joined by a comma and a space
    exactly when the list is given and not empty, then the sentence that
    asks for the JSON response only, which ends every prompt. *)
Theorem prompt_clauses (ingredients : list string)
  (cuisine_type : option string)
  (dietary_restrictions : option (list string)) :
  exists style diet,
    RecipeGenerator._build_prompt ingredients cuisine_type dietary_restrictions
    = prompt_head ingredients ++ style ++ diet ++ nl ++ nl
      ++ "Provide ONLY the JSON response, no additional text or markdown formatting."
    /\ (forall c, cuisine_type = Some c -> c <> EmptyString ->
        style = nl ++ "- Prefer " ++ c ++ " cuisine style")
    /\ (cuisine_type = None \/ cuisine_type = Some EmptyString ->
        style = EmptyString)
    /\ (forall d, dietary_restrictions = Some d -> d <> [] ->
        diet = nl ++ "- Follow these dietary restrictions: " ++ join ", " d)
    /\ (dietary_restrictions = None \/ dietary_restrictions = Some [] ->
        diet = EmptyString).
Proof.
  exists (match cuisine_type with
          | Some c => if negb (String.eqb c EmptyString)
                      then nl ++ "- Prefer " ++ c ++ " cuisine style"
                      else EmptyString
          | None => EmptyString
          end),
         (match dietary_restrictions with
          | Some (x :: d) =>
              nl ++ "- Follow these dietary restrictions: "
              ++ join ", " (x :: d)
          | _ => EmptyString
          end).
  split; [|split; [|split; [|split]]].
  - unfold RecipeGenerator._build_prompt. fold (prompt_head ingredients).
    change RecipeGenerator.json_only
      with (nl ++ nl ++ "Provide ONLY the JSON response, no additional text or markdown formatting.").
    destruct cuisine_type as [c|];
      [destruct (negb (String.eqb c EmptyString))|];
      (destruct dietary_restrictions as [[|x d]|]);
      cbn [andb Nat.ltb Nat.leb List.length];
      rewrite ?append_assoc; reflexivity.
  - intros c -> Hc. apply String.eqb_neq in Hc. now rewrite Hc.
  - intros [-> | ->]; reflexivity.
  - intros d -> Hd. destruct d; [congruence | reflexivity].
  - intros [-> | ->]; reflexivity.
Qed.

(* ------------------------------------------------------------------ *)
(** ** Properties of the Flask handlers *)

Section AppProperties.
Variable json_loads : string -> exc json.
Variable generate_content : string -> exc string.
Variable MAX_INGREDIENTS : Z.
Variable pyd_str : json -> option string.
Variable pyd_int : json -> option Z.
Variable not_a_mapping : string -> json -> string.

Local Abbreviation validate_ingredients :=
  (App.validate_ingredients MAX_INGREDIENTS pyd_str).
Local Abbreviation validate_count := (App.validate_count pyd_int).
Local Abbreviation validate_RecipeRequest :=
  (App.validate_RecipeRequest MAX_INGREDIENTS pyd_str).
Local Abbreviation validate_MultipleRecipesRequest :=
  (App.validate_MultipleRecipesRequest MAX_INGREDIENTS pyd_str pyd_int).
Local Abbreviation generate_recipe :=
  (App.generate_recipe json_loads generate_content MAX_INGREDIENTS pyd_str
     not_a_mapping).
Local Abbreviation suggest_recipes :=
  (App.suggest_recipes json_loads generate_content MAX_INGREDIENTS pyd_str
     pyd_int not_a_mapping).

Lemma str_items_strs (items : list string) :
  str_accepted pyd_str ->
  App.str_items pyd_str (map JStr items) = Some items.
Proof.
  intros H. induction items as [|s items IH]; [reflexivity|].
  simpl. now rewrite H, IH.
Qed.

Lemma validate_ingredients_strs (data : list (string * json))
  (items : list string) :
  str_accepted pyd_str ->
  lookup "ingredients" data = Some (JArr (map JStr items)) ->
  validate_ingredients data
  = if (Z.of_nat (List.length items) <? 1)%Z
    then inl [("ingredients", "too_short")]
    else if (MAX_INGREDIENTS <? Z.of_nat (List.length items))%Z
         then inl [("ingredients", "too_long")]
         else inr items.
Proof.
  intros H L. unfold App.validate_ingredients.
  now rewrite L, (str_items_strs _ H).
Qed.

Lemma truthy_has_field (k : string) (v : json)
  (data : list (string * json)) :
  lookup k data = Some v -> truthy (JObj data) = true.
Proof. destruct data; [discriminate | reflexivity]. Qed.

Lemma generate_recipe_invalid (data : list (string * json))
  (errs : list verror) (sent : list string) :
  truthy (JObj data) = true ->
  validate_RecipeRequest data = inl errs ->
  generate_recipe (inr (JObj data)) sent
  = (inr (validation_error errs, 400), sent).
Proof.
  intros T V. unfold App.generate_recipe, try_except, bind, lift.
  rewrite T. cbn [negb]. now rewrite V.
Qed.

Lemma suggest_recipes_invalid (data : list (string * json))
  (errs : list verror) (sent : list string) :
  truthy (JObj data) = true ->
  validate_MultipleRecipesRequest data = inl errs ->
  suggest_recipes (inr (JObj data)) sent
  = (inr (validation_error errs, 400), sent).
Proof.
  intros T V. unfold App.suggest_recipes, try_except, bind, lift.
  rewrite T. cbn [negb]. now rewrite V.
Qed.

(** A request that passes the validation sends exactly one prompt, built
    from the validated fields. *)
Lemma generate_recipe_valid_sent (data : list (string * json))
  (recipe_request : RecipeRequest.t) (sent : list string) :
  truthy (JObj data) = true ->
  validate_RecipeRequest data = inr recipe_request ->
  snd (generate_recipe (inr (JObj data)) sent)
  = (sent ++ [RecipeGenerator._build_prompt
                (RecipeRequest.ingredients recipe_request)
                (RecipeRequest.cuisine_type recipe_request)
                (RecipeRequest.dietary_restrictions recipe_request)])%list.
Proof.
  intros T V. unfold App.generate_recipe, try_except, bind, lift.
  rewrite T. cbn [negb]. rewrite V, generate_recipe_run.
  destruct (generate_content _) as [e|text]; [reflexivity|].
  destruct (RecipeGenerator._parse_response json_loads text) as [e|recipe];
    [reflexivity|].
  cbn. destruct recipe; reflexivity.
Qed.

(** C7. For a request whose ingredients are a list of strings, the list is
    accepted exactly when its length is between 1 and MAX_INGREDIENTS, and
    both handlers answer a list outside these bounds with 400 and the
    validation errors, no prompt being sent; a count given as an integer
    is accepted exactly when it is between 1 and 5, a count outside is
    answered with 400 by /suggest_recipes, no prompt being sent, and a
    count that is not given is 3. *)
Theorem request_validation_bounds (data : list (string * json))
  (items : list string) (sent : list string) :
  str_accepted pyd_str -> int_accepted pyd_int ->
  lookup "ingredients" data = Some (JArr (map JStr items)) ->
  (validate_ingredients data = inr items
   <-> (1 <= Z.of_nat (List.length items) <= MAX_INGREDIENTS)%Z)
  /\ ((Z.of_nat (List.length items) < 1
       \/ MAX_INGREDIENTS < Z.of_nat (List.length items))%Z ->
      exists errs errs',
        generate_recipe (inr (JObj data)) sent
        = (inr (validation_error errs, 400), sent)
        /\ suggest_recipes (inr (JObj data)) sent
           = (inr (validation_error errs', 400), sent)
        /\ errs <> [] /\ errs' <> [])
  /\ (forall z, lookup "count" data = Some (JInt z) ->
      (validate_count data = inr z <-> (1 <= z <= 5)%Z)
      /\ ((z < 1 \/ 5 < z)%Z ->
          exists errs,
            suggest_recipes (inr (JObj data)) sent
            = (inr (validation_error errs, 400), sent)
            /\ errs <> []))
  /\ (lookup "count" data = None -> validate_count data = inr 3%Z).
Proof.
  intros Hstr Hint L.
  pose proof (truthy_has_field _ _ _ L) as T.
  pose proof (validate_ingredients_strs _ _ Hstr L) as V.
  split; [|split; [|split]].
  - rewrite V.
    destruct (Z.ltb_spec (Z.of_nat (List.length items)) 1);
      [split; [discriminate | lia]|].
    destruct (Z.ltb_spec MAX_INGREDIENTS (Z.of_nat (List.length items)));
      [split; [discriminate | lia]|].
    split; [lia | reflexivity].
  - intros Hout.
    assert (E : exists e, validate_ingredients data = inl [e]).
    { rewrite V.
      destruct (Z.ltb_spec (Z.of_nat (List.length items)) 1);
        [eexists; reflexivity|].
      destruct (Z.ltb_spec MAX_INGREDIENTS (Z.of_nat (List.length items)));
        [eexists; reflexivity | lia]. }
    destruct E as [e E].
    eexists; eexists. split; [|split; [|split]].
    + apply (generate_recipe_invalid _ _ _ T).
      unfold App.validate_RecipeRequest. rewrite E. reflexivity.
    + apply (suggest_recipes_invalid _ _ _ T).
      unfold App.validate_MultipleRecipesRequest. rewrite E. reflexivity.
    + discriminate.
    + discriminate.
  - intros z C.
    assert (VC : validate_count data
                 = if (z <? 1)%Z then inl [("count", "greater_than_equal")]
                   else if (5 <? z)%Z then inl [("count", "less_than_equal")]
                        else inr z).
    { unfold App.validate_count. now rewrite C, Hint. }
    split.
    + rewrite VC. destruct (Z.ltb_spec z 1); [split; [discriminate | lia]|].
      destruct (Z.ltb_spec 5 z); [split; [discriminate | lia]|].
      split; [lia | reflexivity].
    + intros Hout.
      assert (E : exists e, validate_count data = inl [e]).
      { rewrite VC. destruct (Z.ltb_spec z 1); [eexists; reflexivity|].
        destruct (Z.ltb_spec 5 z); [eexists; reflexivity | lia]. }
      destruct E as [e E].
      exists (errors_of (validate_ingredients data) ++ [e])%list. split.
      * apply (suggest_recipes_invalid _ _ _ T).
        unfold App.validate_MultipleRecipesRequest. rewrite E.
        destruct (validate_ingredients data); reflexivity.
      * destruct (errors_of (validate_ingredients data)); discriminate.
  - intros C. unfold App.validate_count. now rewrite C.
Qed.


(** C10. Every list of 1 to MAX_INGREDIENTS strings passes the validation
    whatever the strings are, the empty string included, and the prompt
    the handler sends is built from the very same list: it holds the
    strings joined in their order. *)
Theorem empty_ingredients_pass (items : list string) (sent : list string) :
  str_accepted pyd_str ->
  (1 <= Z.of_nat (List.length items) <= MAX_INGREDIENTS)%Z ->
  validate_RecipeRequest [("ingredients", JArr (map JStr items))]
  = inr (RecipeRequest.Build items None (Some []))
  /\ snd (generate_recipe
            (inr (JObj [("ingredients", JArr (map JStr items))])) sent)
     = (sent ++ [RecipeGenerator._build_prompt items None (Some [])])%list
  /\ exists rest,
       RecipeGenerator._build_prompt items None (Some [])
       = "You are a professional chef. Create a detailed recipe using the following ingredients: "
         ++ join ", " items ++ rest.
Proof.
  intros Hstr Hlen.
  assert (V : validate_RecipeRequest [("ingredients", JArr (map JStr items))]
              = inr (RecipeRequest.Build items None (Some []))).
  { unfold App.validate_RecipeRequest.
    rewrite (validate_ingredients_strs _ items Hstr) by reflexivity.
    destruct (Z.ltb_spec (Z.of_nat (List.length items)) 1); [lia|].
    destruct (Z.ltb_spec MAX_INGREDIENTS (Z.of_nat (List.length items)));
      [lia | reflexivity]. }
  split; [exact V|]. split.
  - exact (generate_recipe_valid_sent
             [("ingredients", JArr (map JStr items))] _ sent eq_refl V).
  - eexists. unfold RecipeGenerator._build_prompt.
    cbn [andb]. rewrite !append_assoc. reflexivity.
Qed.
End AppProperties.

(* ------------------------------------------------------------------ *)
(** ** Concrete runs *)

Lemma invalid_json_gives_fallback_witness :
  stub_model prose (RecipeGenerator._build_prompt ["egg"] None (Some []))
  = inr prose
  /\ json_loads_ref (clean_response prose)
     = inl (PyExn JSONDecodeError expecting_value)
  /\ RecipeGenerator.generate_recipe json_loads_ref (stub_model prose)
       ["egg"] None (Some []) []
     = (inr (JObj [("success", JBool true);
                   ("recipe",
                    JObj [("recipe_name", JStr "Generated Recipe");
                          ("description", JStr (slice_to 200 prose));
                          ("ingredients", JArr []);
                          ("instructions", JArr [JStr prose]);
                          ("error",
                           JStr "Failed to parse structured recipe")])]),
        ([] ++ [RecipeGenerator._build_prompt ["egg"] None (Some [])])%list).
Proof.
  split; [reflexivity|]. split; [vm_compute; reflexivity|].
  exact (proj1 (invalid_json_gives_fallback json_loads_ref (stub_model prose)
                  ["egg"] None (Some []) prose
                  (PyExn JSONDecodeError expecting_value) []
                  eq_refl eq_refl eq_refl)).
Defined.

Lemma parse_of_serialized_recipe_witness :
  json_loads_ref ("{" ++ sample_body ++ "}") = inr (JObj sample_fields)
  /\ has_key "recipe_name" sample_fields = true
  /\ has_key "ingredients" sample_fields = true
  /\ has_key "instructions" sample_fields = true
  /\ RecipeGenerator._parse_response json_loads_ref
       ("{" ++ sample_body ++ "}")
     = inr (JObj sample_fields).
Proof.
  assert (H : json_loads_ref ("{" ++ sample_body ++ "}")
              = inr (JObj sample_fields)) by (vm_compute; reflexivity).
  split; [exact H|]. do 3 (split; [reflexivity|]).
  exact (parse_of_serialized_recipe json_loads_ref sample_body sample_fields
           H eq_refl eq_refl eq_refl).
Defined.

Lemma fenced_parses_as_unfenced_witness :
  json_loads_ref (strip ticks_text) = inr ticks_recipe
  /\ startswith fence (strip ticks_text) = false
  /\ clean_response (fence ++ "json" ++ nl ++ ticks_text ++ nl ++ fence)
     = clean_response ticks_text
  /\ RecipeGenerator._parse_response json_loads_ref
       (fence ++ "json" ++ nl ++ ticks_text ++ nl ++ fence)
     = RecipeGenerator._parse_response json_loads_ref ticks_text.
Proof.
  assert (H : json_loads_ref (strip ticks_text) = inr ticks_recipe)
    by (vm_compute; reflexivity).
  assert (P : startswith fence (strip ticks_text) = false)
    by exact (json_loads_ref_not_fenced _ _ H).
  split; [exact H|]. split; [exact P|].
  exact (fenced_parses_as_unfenced json_loads_ref "json" ticks_text
           ticks_recipe (or_introl eq_refl) H P).
Defined.


(** C1, as the specification states it, fails on this run: the answer
    decodes to an object that has no key recipes, and the result is a
    success with an empty list, not a failure. *)
Lemma missing_recipes_counterexample :
  json_loads_ref (clean_response suggestions_text)
  = inr (JObj suggestions_fields)
  /\ lookup "recipes" suggestions_fields = None
  /\ run (RecipeGenerator.generate_multiple_recipes json_loads_ref
            (stub_model suggestions_text) ["egg"] 3)
     = (inr (JObj [("success", JBool true); ("recipes", JArr [])]),
        [RecipeGenerator.suggestions_prompt ["egg"] 3]).
Proof. vm_compute. repeat split. Qed.

Lemma missing_recipes_defaults_to_empty_witness :
  stub_model suggestions_text (RecipeGenerator.suggestions_prompt ["egg"] 3)
  = inr suggestions_text
  /\ json_loads_ref (clean_response suggestions_text)
     = inr (JObj suggestions_fields)
  /\ lookup "recipes" suggestions_fields = None
  /\ RecipeGenerator.generate_multiple_recipes json_loads_ref
       (stub_model suggestions_text) ["egg"] 3 []
     = (inr (JObj [("success", JBool true); ("recipes", JArr [])]),
        ([] ++ [RecipeGenerator.suggestions_prompt ["egg"] 3])%list).
Proof.
  assert (H : json_loads_ref (clean_response suggestions_text)
              = inr (JObj suggestions_fields)) by (vm_compute; reflexivity).
  split; [reflexivity|]. split; [exact H|]. split; [reflexivity|].
  exact (missing_recipes_defaults_to_empty json_loads_ref
           (stub_model suggestions_text) ["egg"] 3 suggestions_text
           suggestions_fields [] eq_refl H eq_refl).
Defined.

Lemma strict_str_accepted : str_accepted App.strict_str.
Proof. intros s; reflexivity. Qed.

Lemma strict_int_accepted : int_accepted App.strict_int.
Proof. intros z; reflexivity. Qed.

Lemma request_validation_bounds_witness :
  str_accepted App.strict_str
  /\ int_accepted App.strict_int
  /\ lookup "ingredients" count_seven = Some (JArr (map JStr ["egg"]))
  /\ lookup "count" count_seven = Some (JInt 7)
  /\ exists errs,
       App.suggest_recipes json_loads_ref (stub_model prose) default_max
         App.strict_str App.strict_int App.mapping_message
         (inr (JObj count_seven)) []
       = (inr (validation_error errs, 400), [])
       /\ errs <> [].
Proof.
  split; [exact strict_str_accepted|]. split; [exact strict_int_accepted|].
  split; [reflexivity|]. split; [reflexivity|].
  exact (proj2 (proj1 (proj2 (proj2
           (request_validation_bounds json_loads_ref (stub_model prose)
              default_max App.strict_str App.strict_int App.mapping_message
              count_seven ["egg"] []
              strict_str_accepted strict_int_accepted eq_refl)))
           7%Z eq_refl)
         (or_intror eq_refl)).
Defined.


Lemma empty_ingredients_pass_witness :
  str_accepted App.strict_str
  /\ (1 <= Z.of_nat (List.length ["egg"; EmptyString; "rice"])
      <= default_max)%Z
  /\ App.validate_RecipeRequest default_max App.strict_str
       [("ingredients", JArr (map JStr ["egg"; EmptyString; "rice"]))]
     = inr (RecipeRequest.Build ["egg"; EmptyString; "rice"] None (Some []))
  /\ snd (App.generate_recipe json_loads_ref (stub_model prose) default_max
            App.strict_str App.mapping_message
            (inr (JObj [("ingredients",
                         JArr (map JStr ["egg"; EmptyString; "rice"]))]))
            [])
     = ([] ++ [RecipeGenerator._build_prompt ["egg"; EmptyString; "rice"]
                 None (Some [])])%list
  /\ exists rest,
       RecipeGenerator._build_prompt ["egg"; EmptyString; "rice"] None
         (Some [])
       = "You are a professional chef. Create a detailed recipe using the following ingredients: "
         ++ join ", " ["egg"; EmptyString; "rice"] ++ rest.
Proof.
  assert (B : (1 <= Z.of_nat (List.length ["egg"; EmptyString; "rice"])
               <= default_max)%Z) by (unfold default_max; simpl; lia).
  split; [exact strict_str_accepted|]. split; [exact B|].
  exact (empty_ingredients_pass json_loads_ref (stub_model prose) default_max
           App.strict_str App.mapping_message
           ["egg"; EmptyString; "rice"] [] strict_str_accepted B).
Defined.

(** The two end-to-end scenarios of the specification that go through the
    upstream call. *)
Example generate_recipe_end_to_end :
  run (App.generate_recipe json_loads_ref
         (stub_model ("{" ++ sample_body ++ "}")) default_max
         App.strict_str App.mapping_message
         (inr (JObj [("ingredients", JArr [JStr "chicken"; JStr "rice"])])))
  = (inr (JObj [("success", JBool true); ("recipe", JObj sample_fields)],
          200),
     [RecipeGenerator._build_prompt ["chicken"; "rice"] None (Some [])]).
Proof. vm_compute. reflexivity. Qed.

Example suggest_recipes_count_seven :
  run (App.suggest_recipes json_loads_ref (stub_model prose) default_max
         App.strict_str App.strict_int App.mapping_message
         (inr (JObj count_seven)))
  = (inr (validation_error [("count", "less_than_equal")], 400), []).
Proof. vm_compute. reflexivity. Qed.

(* ------------------------------------------------------------------ *)
(** ** Further properties of the cleaning *)

Lemma lstrip_rstrip_comm (s : string) : lstrip (rstrip s) = rstrip (lstrip s).
Proof.
  induction s as [|c s IH]; [reflexivity|].
  destruct (isspace c) eqn:E.
  - cbn [lstrip rstrip]. rewrite E, <- IH.
    destruct (rstrip s) as [|a r]; [reflexivity|].
    cbn [lstrip]. now rewrite E.
  - rewrite (lstrip_nonspace _ _ E), (rstrip_nonspace _ _ E).
    now apply lstrip_nonspace.
Qed.

Lemma rstrip_app_r (a b : string) :
  rstrip b <> EmptyString -> rstrip (a ++ b) = a ++ rstrip b.
Proof.
  intros H. induction a as [|c a IH]; [reflexivity|].
  cbn [append rstrip]. rewrite IH.
  destruct (a ++ rstrip b) as [|x y] eqn:E; [|reflexivity].
  destruct a; [simpl in E; congruence | discriminate].
Qed.

(** The last character of a stripped text is no blank. *)
Lemma rstrip_last (s u : string) (c : ascii) :
  rstrip s = u ++ String c EmptyString -> isspace c = false.
Proof.
  revert u; induction s as [|a s IH]; intros u H.
  - destruct u; discriminate.
  - cbn [rstrip] in H. destruct (rstrip s) as [|x r] eqn:E.
    + destruct (isspace a) eqn:Ea.
      * destruct u; discriminate.
      * destruct u as [|y [|z u]]; inversion H; subst; assumption.
    + destruct u as [|y u].
      * inversion H.
      * inversion H. now apply (IH u).
Qed.

Lemma lstrip_snoc (s : string) (c : ascii) :
  isspace c = false ->
  exists y, lstrip (s ++ String c EmptyString) = y ++ String c EmptyString.
Proof.
  intros H. induction s as [|a s IH]; cbn [append lstrip].
  - rewrite H. now exists EmptyString.
  - destruct (isspace a); [exact IH|].
    now exists (String a s).
Qed.

Lemma app_snoc_inj (x y : string) (a b : ascii) :
  x ++ String a EmptyString = y ++ String b EmptyString -> a = b.
Proof.
  revert y; induction x as [|c x IH]; intros [|d y] H; simpl in H.
  - now inversion H.
  - inversion H. destruct y; discriminate.
  - inversion H. destruct x; discriminate.
  - inversion H. now apply (IH y).
Qed.

(** The second substitution leaves a text alone when its last character is
    neither a blank nor a backtick. *)
Lemma sub_close_fence_none (s : string) (c : ascii) :
  isspace c = false -> c <> "`"%char ->
  sub_close_fence (s ++ String c EmptyString) = s ++ String c EmptyString.
Proof.
  intros Hs Hb.
  assert (M : forall x, match_close_fence (x ++ String c EmptyString) = None).
  { intros x. unfold match_close_fence.
    destruct (lstrip_snoc x c Hs) as [y Y]. rewrite Y.
    destruct (drop_prefix fence (y ++ String c EmptyString)) as [tail|] eqn:D;
      [|reflexivity].
    apply drop_prefix_sound in D.
    destruct (String.eqb_spec tail EmptyString) as [-> | N1].
    - exfalso. apply Hb.
      apply (app_snoc_inj y "``" c "`"). exact D.
    - destruct (String.eqb_spec tail nl) as [-> | N2]; [|reflexivity].
      exfalso.
      assert (c = "010"%char) by (apply (app_snoc_inj y "```" c "010"); exact D).
      subst c. discriminate. }
  induction s as [|a s IH].
  - pose proof (M EmptyString) as M0. cbn [append] in M0.
    cbn [append sub_close_fence]. now rewrite M0.
  - change (String a s ++ String c EmptyString)
      with (String a (s ++ String c EmptyString)).
    cbn [sub_close_fence].
    change (String a (s ++ String c EmptyString))
      with (String a s ++ String c EmptyString).
    rewrite (M (String a s)).
    change (String a s ++ String c EmptyString)
      with (String a (s ++ String c EmptyString)).
    now rewrite IH.
Qed.

(** X1. An opening fence line, tagged json or bare, that is never closed is
    removed all the same: the text after it is cleaned to its strip, as
    long as that does not end with a backtick. *)
Theorem unclosed_fence_is_removed (tag text u : string) (c : ascii) :
  tag = "json" \/ tag = EmptyString ->
  strip text = u ++ String c EmptyString ->
  c <> "`"%char ->
  clean_response (fence ++ tag ++ nl ++ text) = strip text.
Proof.
  intros Htag Hlast Hc.
  assert (Hs : isspace c = false).
  { unfold strip in Hlast. exact (rstrip_last _ _ _ Hlast). }
  assert (N : rstrip text <> EmptyString).
  { intros E. unfold strip in Hlast. rewrite <- lstrip_rstrip_comm, E in Hlast.
    destruct u; discriminate. }
  assert (S1 : strip (fence ++ tag ++ nl ++ text)
               = fence ++ tag ++ nl ++ rstrip text).
  { unfold strip.
    assert (L : lstrip (fence ++ tag ++ nl ++ text)
                = fence ++ tag ++ nl ++ text) by reflexivity.
    rewrite L, <- !append_assoc. now apply rstrip_app_r. }
  assert (S2 : sub_open_fence (fence ++ tag ++ nl ++ rstrip text)
               = strip text).
  { unfold strip. rewrite <- lstrip_rstrip_comm.
    destruct Htag as [-> | ->]; reflexivity. }
  unfold clean_response. rewrite S1.
  assert (P : startswith fence (fence ++ tag ++ nl ++ rstrip text) = true)
    by (unfold startswith; apply prefix_app).
  rewrite P, S2, Hlast, (sub_close_fence_none _ _ Hs Hc), <- Hlast.
  apply strip_idem.
Qed.

(** X2. A closing fence line with no opening fence before it is kept: when
    the first character of the text that is no blank is not a backtick,
    nothing but the blanks around the text is removed. *)
Theorem lone_closing_fence_is_kept (text r : string) (c : ascii) :
  lstrip text = String c r ->
  c <> "`"%char ->
  clean_response (text ++ nl ++ fence) = lstrip text ++ nl ++ fence.
Proof.
  intros L Hc.
  assert (N : lstrip text <> EmptyString) by (rewrite L; discriminate).
  assert (S : strip (text ++ nl ++ fence) = lstrip text ++ nl ++ fence).
  { unfold strip. rewrite (lstrip_app_nonblank _ _ N), <- append_assoc.
    apply rstrip_ends_fence. }
  unfold clean_response. rewrite S, L.
  assert (P : startswith fence (String c r ++ nl ++ fence) = false).
  { unfold startswith, fence. cbn [append prefix].
    destruct (ascii_dec "`" c); [congruence | reflexivity]. }
  rewrite P, <- L, <- S. apply strip_idem.
Qed.

Lemma unclosed_fence_is_removed_witness :
  strip (no_steps_text ++ nl)
  = ("{" ++ dq ++ "recipe_name" ++ dq ++ ": " ++ dq ++ "Soup" ++ dq ++ ", "
     ++ dq ++ "ingredients" ++ dq ++ ": []") ++ String "}" EmptyString
  /\ "}"%char <> "`"%char
  /\ clean_response (fence ++ "json" ++ nl ++ (no_steps_text ++ nl))
     = strip (no_steps_text ++ nl).
Proof.
  assert (H : strip (no_steps_text ++ nl)
              = ("{" ++ dq ++ "recipe_name" ++ dq ++ ": " ++ dq ++ "Soup" ++ dq
                 ++ ", " ++ dq ++ "ingredients" ++ dq ++ ": []")
                ++ String "}" EmptyString) by reflexivity.
  assert (N : "}"%char <> "`"%char) by discriminate.
  split; [exact H|]. split; [exact N|].
  exact (unclosed_fence_is_removed "json" (no_steps_text ++ nl) _ "}"
           (or_introl eq_refl) H N).
Defined.

Lemma lone_closing_fence_is_kept_witness :
  lstrip (" " ++ no_steps_text)
  = String "{" (dq ++ "recipe_name" ++ dq ++ ": " ++ dq ++ "Soup" ++ dq
                ++ ", " ++ dq ++ "ingredients" ++ dq ++ ": []}")
  /\ "{"%char <> "`"%char
  /\ clean_response ((" " ++ no_steps_text) ++ nl ++ fence)
     = lstrip (" " ++ no_steps_text) ++ nl ++ fence.
Proof.
  assert (H : lstrip (" " ++ no_steps_text)
              = String "{" (dq ++ "recipe_name" ++ dq ++ ": " ++ dq ++ "Soup"
                            ++ dq ++ ", " ++ dq ++ "ingredients" ++ dq
                            ++ ": []}")) by reflexivity.
  assert (N : "{"%char <> "`"%char) by discriminate.
  split; [exact H|]. split; [exact N|].
  exact (lone_closing_fence_is_kept (" " ++ no_steps_text) _ "{" H N).
Defined.

(* ------------------------------------------------------------------ *)
(** ** Further properties of the recipe generator *)

Section GeneratorEdges.
Variable json_loads : string -> exc json.
Variable generate_content : string -> exc string.

Local Abbreviation _parse_response :=
  (RecipeGenerator._parse_response json_loads).
Local Abbreviation generate_multiple_recipes :=
  (RecipeGenerator.generate_multiple_recipes json_loads generate_content).
Local Abbreviation suggestions_prompt := RecipeGenerator.suggestions_prompt.
Local Abbreviation required_fields := RecipeGenerator.required_fields.
Local Abbreviation check_required := RecipeGenerator.check_required.

Lemma check_required_passes (fields : list string) (v : json) :
  check_required fields v = inr tt
  <-> (forall field, In field fields -> py_in field v = inr true).
Proof.
  induction fields as [|f fields IH].
  - split; [intros _ field [] | reflexivity].
  - cbn [RecipeGenerator.check_required].
    destruct (py_in f v) as [e|[|]] eqn:E; cbn [ebind negb].
    + split; [discriminate|].
      intros H. specialize (H f (or_introl eq_refl)). congruence.
    + rewrite IH. split.
      * intros H field [<- | Hin]; [exact E | now apply H].
      * intros H field Hin. apply H. now right.
    + split; [discriminate|].
      intros H. specialize (H f (or_introl eq_refl)). congruence.
Qed.

(** X3. Whatever [_parse_response] returns, a decoded value or the
    fallback, holds the three required fields in the sense of the check
    (Python's [in]). *)
Theorem parsed_recipe_has_required_fields (response_text field : string)
  (recipe_data : json) :
  _parse_response response_text = inr recipe_data ->
  In field required_fields ->
  py_in field recipe_data = inr true.
Proof.
  unfold RecipeGenerator._parse_response, RecipeGenerator.parse_body.
  destruct (json_loads (clean_response response_text)) as [e|v];
    cbn [ebind].
  - destruct (is_JSONDecodeError e); [|discriminate].
    intros H Hin. inversion H; subst recipe_data.
    destruct Hin as [<- | [<- | [<- | []]]]; reflexivity.
  - destruct (check_required required_fields v) as [e|[]] eqn:E;
      cbn [ebind].
    + destruct (is_JSONDecodeError e) eqn:C; [|discriminate].
      now rewrite (check_required_class _ _ _ E) in C.
    + intros H. inversion H; subst v.
      now apply check_required_passes.
Qed.

(** X4. Once the cleaned text decodes, the parser returns the decoded value
    itself exactly when the three names are found in it, be it a dict, a
    list that holds the names or a string that holds them; otherwise it
    raises. *)
Theorem decoded_value_is_returned_iff_checked (response_text : string)
  (recipe_data : json) :
  json_loads (clean_response response_text) = inr recipe_data ->
  (_parse_response response_text = inr recipe_data
   <-> (forall field, In field required_fields ->
        py_in field recipe_data = inr true))
  /\ ((exists field, In field required_fields
                     /\ py_in field recipe_data <> inr true) ->
      exists e, _parse_response response_text = inl e).
Proof.
  intros H. rewrite (parse_response_decoded _ _ _ H), <- check_required_passes.
  split.
  - destruct (check_required required_fields recipe_data) as [e|[]];
      split; try discriminate; reflexivity.
  - intros (field & Hin & Hmiss).
    destruct (check_required_raises _ _ _ Hin Hmiss) as [e ->].
    eexists; reflexivity.
Qed.

(** X5. On the multi-recipe path a text that [json.loads] rejects is a
    failure: there is no fallback there, the result is success=false with
    the text of the decoding error. *)
Theorem suggestions_have_no_fallback (ingredients : list string) (count : Z)
  (response_text : string) (e : pyexn) (sent : list string) :
  generate_content (suggestions_prompt ingredients count) = inr response_text ->
  json_loads (clean_response response_text) = inl e ->
  generate_multiple_recipes ingredients count sent
  = (inr (JObj [("success", JBool false);
                ("error", JStr (str_exn e));
                ("message", JStr "Failed to generate recipe suggestions")]),
     (sent ++ [suggestions_prompt ingredients count])%list).
Proof.
  intros Hgen Hloads. rewrite generate_multiple_recipes_run.
  now rewrite Hgen, Hloads.
Qed.

(** X6. On the multi-recipe path an answer that decodes to anything but an
    object (a list of recipes, say) is a failure: the lookup of the key
    raises, and the result is success=false. *)
Theorem suggestions_must_be_an_object (ingredients : list string) (count : Z)
  (response_text : string) (recipes_data : json) (sent : list string) :
  generate_content (suggestions_prompt ingredients count) = inr response_text ->
  json_loads (clean_response response_text) = inr recipes_data ->
  (forall o, recipes_data <> JObj o) ->
  generate_multiple_recipes ingredients count sent
  = (inr (JObj [("success", JBool false);
                ("error",
                 JStr ("'" ++ type_name recipes_data
                       ++ "' object has no attribute 'get'"));
                ("message", JStr "Failed to generate recipe suggestions")]),
     (sent ++ [suggestions_prompt ingredients count])%list).
Proof.
  intros Hgen Hloads Hobj. rewrite generate_multiple_recipes_run.
  rewrite Hgen, Hloads.
  destruct recipes_data; try reflexivity.
  now destruct (Hobj o).
Qed.

(** X7. On the multi-recipe path the value under the key recipes is handed
    on as it is, whatever it is: it is not checked to be a list, and its
    entries are not checked at all. *)
Theorem suggestions_are_passed_through (ingredients : list string) (count : Z)
  (response_text : string) (recipes_data : list (string * json))
  (recipes : json) (sent : list string) :
  generate_content (suggestions_prompt ingredients count) = inr response_text ->
  json_loads (clean_response response_text) = inr (JObj recipes_data) ->
  lookup "recipes" recipes_data = Some recipes ->
  generate_multiple_recipes ingredients count sent
  = (inr (JObj [("success", JBool true); ("recipes", recipes)]),
     (sent ++ [suggestions_prompt ingredients count])%list).
Proof.
  intros Hgen Hloads Hkey. rewrite generate_multiple_recipes_run.
  rewrite Hgen, Hloads. cbn [py_get]. now rewrite Hkey.
Qed.
End GeneratorEdges.

Lemma parsed_recipe_has_required_fields_witness :
  RecipeGenerator._parse_response json_loads_ref prose
  = inr (RecipeGenerator.fallback_recipe prose)
  /\ In "instructions" RecipeGenerator.required_fields
  /\ py_in "instructions" (RecipeGenerator.fallback_recipe prose) = inr true.
Proof.
  assert (H : RecipeGenerator._parse_response json_loads_ref prose
              = inr (RecipeGenerator.fallback_recipe prose))
    by (vm_compute; reflexivity).
  assert (I : In "instructions" RecipeGenerator.required_fields)
    by (simpl; tauto).
  split; [exact H|]. split; [exact I|].
  exact (parsed_recipe_has_required_fields json_loads_ref prose
           "instructions" _ H I).
Defined.

Lemma decoded_value_is_returned_iff_checked_witness :
  json_loads_ref (clean_response names_text) = inr names_list
  /\ RecipeGenerator._parse_response json_loads_ref names_text
     = inr names_list.
Proof.
  assert (H : json_loads_ref (clean_response names_text) = inr names_list)
    by (vm_compute; reflexivity).
  split; [exact H|].
  apply (proj1 (decoded_value_is_returned_iff_checked json_loads_ref
                  names_text names_list H)).
  intros field [<- | [<- | [<- | []]]]; reflexivity.
Defined.

Lemma suggestions_have_no_fallback_witness :
  stub_model prose (RecipeGenerator.suggestions_prompt ["egg"] 3) = inr prose
  /\ json_loads_ref (clean_response prose)
     = inl (PyExn JSONDecodeError expecting_value)
  /\ RecipeGenerator.generate_multiple_recipes json_loads_ref
       (stub_model prose) ["egg"] 3 []
     = (inr (JObj [("success", JBool false);
                   ("error", JStr expecting_value);
                   ("message",
                    JStr "Failed to generate recipe suggestions")]),
        ([] ++ [RecipeGenerator.suggestions_prompt ["egg"] 3])%list).
Proof.
  assert (H : json_loads_ref (clean_response prose)
              = inl (PyExn JSONDecodeError expecting_value))
    by (vm_compute; reflexivity).
  split; [reflexivity|]. split; [exact H|].
  exact (suggestions_have_no_fallback json_loads_ref (stub_model prose)
           ["egg"] 3 prose _ [] eq_refl H).
Defined.

Lemma suggestions_must_be_an_object_witness :
  stub_model bare_list_text (RecipeGenerator.suggestions_prompt ["egg"] 3)
  = inr bare_list_text
  /\ json_loads_ref (clean_response bare_list_text)
     = inr (JArr [JInt 1; JInt 2])
  /\ RecipeGenerator.generate_multiple_recipes json_loads_ref
       (stub_model bare_list_text) ["egg"] 3 []
     = (inr (JObj [("success", JBool false);
                   ("error",
                    JStr ("'" ++ type_name (JArr [JInt 1; JInt 2])
                          ++ "' object has no attribute 'get'"));
                   ("message",
                    JStr "Failed to generate recipe suggestions")]),
        ([] ++ [RecipeGenerator.suggestions_prompt ["egg"] 3])%list).
Proof.
  assert (H : json_loads_ref (clean_response bare_list_text)
              = inr (JArr [JInt 1; JInt 2])) by (vm_compute; reflexivity).
  split; [reflexivity|]. split; [exact H|].
  refine (suggestions_must_be_an_object json_loads_ref
            (stub_model bare_list_text) ["egg"] 3 bare_list_text _ []
            eq_refl H _).
  intros o; discriminate.
Defined.

Lemma suggestions_are_passed_through_witness :
  stub_model recipes_number_text (RecipeGenerator.suggestions_prompt ["egg"] 3)
  = inr recipes_number_text
  /\ json_loads_ref (clean_response recipes_number_text)
     = inr (JObj [("recipes", JInt 5)])
  /\ lookup "recipes" [("recipes", JInt 5)] = Some (JInt 5)
  /\ RecipeGenerator.generate_multiple_recipes json_loads_ref
       (stub_model recipes_number_text) ["egg"] 3 []
     = (inr (JObj [("success", JBool true); ("recipes", JInt 5)]),
        ([] ++ [RecipeGenerator.suggestions_prompt ["egg"] 3])%list).
Proof.
  assert (H : json_loads_ref (clean_response recipes_number_text)
              = inr (JObj [("recipes", JInt 5)]))
    by (vm_compute; reflexivity).
  split; [reflexivity|]. split; [exact H|]. split; [reflexivity|].
  exact (suggestions_are_passed_through json_loads_ref
           (stub_model recipes_number_text) ["egg"] 3 recipes_number_text
           _ _ [] eq_refl H eq_refl).
Defined.

(* ------------------------------------------------------------------ *)
(** ** Further properties of the Flask handlers *)

Section AppEdges.
Variable json_loads : string -> exc json.
Variable generate_content : string -> exc string.
Variable MAX_INGREDIENTS : Z.
Variable pyd_str : json -> option string.
Variable pyd_int : json -> option Z.
Variable not_a_mapping : string -> json -> string.

Local Abbreviation validate_ingredients :=
  (App.validate_ingredients MAX_INGREDIENTS pyd_str).
Local Abbreviation validate_RecipeRequest :=
  (App.validate_RecipeRequest MAX_INGREDIENTS pyd_str).
Local Abbreviation validate_MultipleRecipesRequest :=
  (App.validate_MultipleRecipesRequest MAX_INGREDIENTS pyd_str pyd_int).
Local Abbreviation generate_recipe :=
  (App.generate_recipe json_loads generate_content MAX_INGREDIENTS pyd_str
     not_a_mapping).
Local Abbreviation suggest_recipes :=
  (App.suggest_recipes json_loads generate_content MAX_INGREDIENTS pyd_str
     pyd_int not_a_mapping).
Local Abbreviation _parse_response :=
  (RecipeGenerator._parse_response json_loads).
Local Abbreviation _build_prompt := RecipeGenerator._build_prompt.
Local Abbreviation suggestions_prompt := RecipeGenerator.suggestions_prompt.

(** What POST /generate_recipe answers to a request that passes the
    validation. *)
Lemma generate_recipe_valid (data : list (string * json))
  (r : RecipeRequest.t) (sent : list string) :
  truthy (JObj data) = true ->
  validate_RecipeRequest data = inr r ->
  generate_recipe (inr (JObj data)) sent
  = (inr match generate_content (prompt_of r) with
         | inl e =>
             (RecipeGenerator.failure e "Failed to generate recipe", 500)
         | inr text =>
             match _parse_response text with
             | inl e =>
                 (RecipeGenerator.failure e "Failed to generate recipe", 500)
             | inr recipe =>
                 match py_get recipe "recipe_name" (JStr "Unknown") with
                 | inl e => (internal_error e, 500)
                 | inr _ => (RecipeGenerator.success_recipe recipe, 200)
                 end
             end
         end,
     (sent ++ [prompt_of r])%list).
Proof.
  intros T V. unfold App.generate_recipe, try_except, bind, lift.
  rewrite T. cbn [negb]. rewrite V, generate_recipe_run.
  fold (prompt_of r).
  destruct (generate_content (prompt_of r)) as [e|text]; [reflexivity|].
  destruct (_parse_response text) as [e|recipe]; [reflexivity|].
  cbn. destruct recipe; reflexivity.
Qed.

(** What POST /suggest_recipes answers to a request that passes the
    validation. *)
Lemma suggest_recipes_valid (data : list (string * json))
  (r : MultipleRecipesRequest.t) (sent : list string) :
  truthy (JObj data) = true ->
  validate_MultipleRecipesRequest data = inr r ->
  let message := "Failed to generate recipe suggestions" in
  suggest_recipes (inr (JObj data)) sent
  = (inr match generate_content (suggestions_prompt_of r) with
         | inl e => (RecipeGenerator.failure e message, 500)
         | inr text =>
             match json_loads (clean_response text) with
             | inl e => (RecipeGenerator.failure e message, 500)
             | inr recipes_data =>
                 match py_get recipes_data "recipes" (JArr []) with
                 | inl e => (RecipeGenerator.failure e message, 500)
                 | inr recipes =>
                     match py_len recipes with
                     | inl e => (internal_error e, 500)
                     | inr _ =>
                         (RecipeGenerator.success_recipes recipes, 200)
                     end
                 end
             end
         end,
     (sent ++ [suggestions_prompt_of r])%list).
Proof.
  intros T V message. unfold App.suggest_recipes, try_except, bind, lift.
  rewrite T. cbn [negb]. rewrite V, generate_multiple_recipes_run.
  fold (suggestions_prompt_of r).
  destruct (generate_content (suggestions_prompt_of r)) as [e|text];
    [reflexivity|].
  destruct (json_loads (clean_response text)) as [e|d]; [reflexivity|].
  destruct (py_get d "recipes" (JArr [])) as [e|recipes]; [reflexivity|].
  cbn. destruct (py_len recipes); reflexivity.
Qed.

Lemma generate_recipe_raised (e : pyexn) (sent : list string) :
  generate_recipe (inl e) sent = (inr (internal_error e, 500), sent).
Proof. reflexivity. Qed.

Lemma suggest_recipes_raised (e : pyexn) (sent : list string) :
  suggest_recipes (inl e) sent = (inr (internal_error e, 500), sent).
Proof. reflexivity. Qed.

Lemma generate_recipe_no_mapping (data : json) (sent : list string) :
  truthy data = true -> (forall o, data <> JObj o) ->
  generate_recipe (inr data) sent
  = (inr (internal_error
            (PyExn TypeError (not_a_mapping "RecipeRequest" data)), 500),
     sent).
Proof.
  intros T N. unfold App.generate_recipe, try_except, bind, lift.
  rewrite T. destruct data; try reflexivity. now destruct (N o).
Qed.

Lemma suggest_recipes_no_mapping (data : json) (sent : list string) :
  truthy data = true -> (forall o, data <> JObj o) ->
  suggest_recipes (inr data) sent
  = (inr (internal_error
            (PyExn TypeError (not_a_mapping "MultipleRecipesRequest" data)),
          500),
     sent).
Proof.
  intros T N. unfold App.suggest_recipes, try_except, bind, lift.
  rewrite T. destruct data; try reflexivity. now destruct (N o).
Qed.

Lemma suggest_recipes_no_data (data : json) (sent : list string) :
  truthy data = false ->
  suggest_recipes (inr data) sent = (inr (no_data, 400), sent).
Proof.
  intros T. unfold App.suggest_recipes, try_except, bind, lift.
  now rewrite T.
Qed.

Lemma generate_recipe_no_data (data : json) (sent : list string) :
  truthy data = false ->
  generate_recipe (inr data) sent = (inr (no_data, 400), sent).
Proof.
  intros T. unfold App.generate_recipe, try_except, bind, lift.
  now rewrite T.
Qed.

Lemma truthy_nonempty (data : list (string * json)) :
  data <> [] -> truthy (JObj data) = true.
Proof. destruct data; [intros N; now destruct N | reflexivity]. Qed.

Lemma not_an_object_dec (data : json) :
  (exists o, data = JObj o) \/ (forall o, data <> JObj o).
Proof.
  destruct data; try (right; intros o'; discriminate).
  left; now exists o.
Qed.

Ltac answer body status sent' :=
  exists body, status, sent'; split; [reflexivity|]; split;
  [ first [ left; split; reflexivity
          | right; split; [first [left; reflexivity | right; reflexivity]
                          | reflexivity] ]
  | first [ left; reflexivity | right; eexists; reflexivity ] ].

(** X8. Whatever [request.get_json()] returned or raised, and whatever the
    libraries and the upstream model do, the two handlers raise nothing and
    answer with a body and a status: 200 with success true, or 400 or 500
    with success false; and they send at most one prompt. *)
Theorem handlers_answer_properly (request_json : exc json)
  (sent : list string) :
  answers_properly sent (generate_recipe request_json sent)
  /\ answers_properly sent (suggest_recipes request_json sent).
Proof.
  destruct request_json as [e|data].
  - split; [rewrite generate_recipe_raised | rewrite suggest_recipes_raised];
      answer (internal_error e) 500 sent.
  - destruct (truthy data) eqn:T.
    + destruct (not_an_object_dec data) as [[o ->] | N].
      * split.
        -- destruct (validate_RecipeRequest o) as [errs|r] eqn:V.
           ++ rewrite (generate_recipe_invalid json_loads generate_content
                         MAX_INGREDIENTS pyd_str not_a_mapping _ _ _ T V).
              answer (validation_error errs) 400 sent.
           ++ rewrite (generate_recipe_valid _ _ _ T V).
              destruct (generate_content (prompt_of r)) as [e|text].
              ** eexists _, 500, _; split; [reflexivity|].
                 split; [right; split; [now right | reflexivity]|].
                 right; eexists; reflexivity.
              ** destruct (_parse_response text) as [e|recipe].
                 --- eexists _, 500, _; split; [reflexivity|].
                     split; [right; split; [now right | reflexivity]|].
                     right; eexists; reflexivity.
                 --- destruct (py_get recipe "recipe_name" (JStr "Unknown")).
                     +++ eexists _, 500, _; split; [reflexivity|].
                         split; [right; split; [now right | reflexivity]|].
                         right; eexists; reflexivity.
                     +++ eexists _, 200, _; split; [reflexivity|].
                         split; [left; split; reflexivity|].
                         right; eexists; reflexivity.
        -- destruct (validate_MultipleRecipesRequest o) as [errs|r] eqn:V.
           ++ rewrite (suggest_recipes_invalid json_loads generate_content
                         MAX_INGREDIENTS pyd_str pyd_int not_a_mapping
                         _ _ _ T V).
              answer (validation_error errs) 400 sent.
           ++ rewrite (suggest_recipes_valid _ _ _ T V).
              destruct (generate_content (suggestions_prompt_of r))
                as [e|text].
              ** eexists _, 500, _; split; [reflexivity|].
                 split; [right; split; [now right | reflexivity]|].
                 right; eexists; reflexivity.
              ** destruct (json_loads (clean_response text)) as [e|d].
                 --- eexists _, 500, _; split; [reflexivity|].
                     split; [right; split; [now right | reflexivity]|].
                     right; eexists; reflexivity.
                 --- destruct (py_get d "recipes" (JArr [])) as [e|recipes].
                     +++ eexists _, 500, _; split; [reflexivity|].
                         split; [right; split; [now right | reflexivity]|].
                         right; eexists; reflexivity.
                     +++ destruct (py_len recipes).
                         *** eexists _, 500, _; split; [reflexivity|].
                             split;
                               [right; split; [now right | reflexivity]|].
                             right; eexists; reflexivity.
                         *** eexists _, 200, _; split; [reflexivity|].
                             split; [left; split; reflexivity|].
                             right; eexists; reflexivity.
      * split;
          [rewrite (generate_recipe_no_mapping _ _ T N)
          |rewrite (suggest_recipes_no_mapping _ _ T N)];
          eexists _, 500, sent; (split; [reflexivity|]);
          (split; [right; split; [now right | reflexivity] | now left]).
    + split;
        [rewrite (generate_recipe_no_data _ _ T)
        |rewrite (suggest_recipes_no_data _ _ T)];
        answer no_data 400 sent.
Qed.
(** X9. When [request.get_json()] raises, or returns a value that is true
    but no mapping (a list, a string, a number), the handlers answer 500
    "Internal server error" with the text of the exception, not 400, and
    send no prompt. *)
Theorem unusable_body_is_internal_error (sent : list string) :
  (forall e,
      generate_recipe (inl e) sent
      = (inr (JObj [("success", JBool false);
                    ("error", JStr "Internal server error");
                    ("message", JStr (str_exn e))], 500), sent)
      /\ suggest_recipes (inl e) sent
         = (inr (JObj [("success", JBool false);
                       ("error", JStr "Internal server error");
                       ("message", JStr (str_exn e))], 500), sent))
  /\ (forall data,
         truthy data = true -> (forall o, data <> JObj o) ->
         generate_recipe (inr data) sent
         = (inr (JObj [("success", JBool false);
                       ("error", JStr "Internal server error");
                       ("message",
                        JStr (not_a_mapping "RecipeRequest" data))], 500),
            sent)
         /\ suggest_recipes (inr data) sent
            = (inr (JObj [("success", JBool false);
                          ("error", JStr "Internal server error");
                          ("message",
                           JStr (not_a_mapping "MultipleRecipesRequest"
                                   data))], 500),
               sent)).
Proof.
  split.
  - intros e. split; reflexivity.
  - intros data T N. split.
    + exact (generate_recipe_no_mapping data sent T N).
    + exact (suggest_recipes_no_mapping data sent T N).
Qed.

(** X10. A body that holds some key but not the key ingredients is answered
    400 by both handlers, with an error that says the field is missing, and
    no prompt is sent. *)
Theorem missing_ingredients_is_bad_request (data : list (string * json))
  (sent : list string) :
  data <> [] ->
  lookup "ingredients" data = None ->
  exists errs errs',
    In ("ingredients", "missing") errs
    /\ In ("ingredients", "missing") errs'
    /\ generate_recipe (inr (JObj data)) sent
       = (inr (validation_error errs, 400), sent)
    /\ suggest_recipes (inr (JObj data)) sent
       = (inr (validation_error errs', 400), sent).
Proof.
  intros N L.
  pose proof (truthy_nonempty data N) as T.
  assert (V : validate_ingredients data = inl [("ingredients", "missing")])
    by (unfold App.validate_ingredients; now rewrite L).
  eexists; eexists. split; [|split; [|split]].
  3: { apply (generate_recipe_invalid json_loads generate_content
                MAX_INGREDIENTS pyd_str not_a_mapping _ _ _ T).
       unfold App.validate_RecipeRequest. rewrite V. reflexivity. }
  3: { apply (suggest_recipes_invalid json_loads generate_content
                MAX_INGREDIENTS pyd_str pyd_int not_a_mapping _ _ _ T).
       unfold App.validate_MultipleRecipesRequest. rewrite V. reflexivity. }
  - now left.
  - now left.
Qed.

(** X11. When the upstream call raises for a request that passed the
    validation, POST /generate_recipe answers 500 with the result of the
    generator as it is: success false, the text of the exception and the
    fixed message. *)
Theorem upstream_failure_is_500 (data : list (string * json))
  (r : RecipeRequest.t) (e : pyexn) (sent : list string) :
  data <> [] ->
  validate_RecipeRequest data = inr r ->
  generate_content (prompt_of r) = inl e ->
  generate_recipe (inr (JObj data)) sent
  = (inr (JObj [("success", JBool false);
                ("error", JStr (str_exn e));
                ("message", JStr "Failed to generate recipe")], 500),
     (sent ++ [prompt_of r])%list).
Proof.
  intros N V G.
  pose proof (truthy_nonempty data N) as T.
  now rewrite (generate_recipe_valid _ _ _ T V), G.
Qed.

(** X12. When the upstream model answers a valid request with a text that
    [json.loads] rejects, POST /generate_recipe answers 200 with the
    fallback recipe. *)
Theorem unparsable_answer_is_200 (data : list (string * json))
  (r : RecipeRequest.t) (response_text : string) (e : pyexn)
  (sent : list string) :
  data <> [] ->
  validate_RecipeRequest data = inr r ->
  generate_content (prompt_of r) = inr response_text ->
  json_loads (clean_response response_text) = inl e ->
  is_JSONDecodeError e = true ->
  generate_recipe (inr (JObj data)) sent
  = (inr (JObj [("success", JBool true);
                ("recipe", RecipeGenerator.fallback_recipe response_text)],
          200),
     (sent ++ [prompt_of r])%list).
Proof.
  intros N V G L C.
  pose proof (truthy_nonempty data N) as T.
  rewrite (generate_recipe_valid _ _ _ T V), G.
  unfold RecipeGenerator._parse_response, RecipeGenerator.parse_body.
  rewrite L. cbn [ebind]. rewrite C. reflexivity.
Qed.

(** X13. When the parser returns a value that is no dict (a list or a
    string in which the three names are found), the generator reports a
    success but POST /generate_recipe answers 500 "Internal server error":
    reading the name of the recipe for the log raises. *)
Theorem recipe_that_is_no_dict_is_500 (data : list (string * json))
  (r : RecipeRequest.t) (response_text : string) (recipe : json)
  (sent : list string) :
  data <> [] ->
  validate_RecipeRequest data = inr r ->
  generate_content (prompt_of r) = inr response_text ->
  _parse_response response_text = inr recipe ->
  (forall o, recipe <> JObj o) ->
  RecipeGenerator.generate_recipe json_loads generate_content
    (RecipeRequest.ingredients r) (RecipeRequest.cuisine_type r)
    (RecipeRequest.dietary_restrictions r) sent
  = (inr (JObj [("success", JBool true); ("recipe", recipe)]),
     (sent ++ [prompt_of r])%list)
  /\ generate_recipe (inr (JObj data)) sent
     = (inr (JObj [("success", JBool false);
                   ("error", JStr "Internal server error");
                   ("message",
                    JStr ("'" ++ type_name recipe
                          ++ "' object has no attribute 'get'"))], 500),
        (sent ++ [prompt_of r])%list).
Proof.
  intros N V G P D.
  pose proof (truthy_nonempty data N) as T.
  split.
  - rewrite generate_recipe_run. fold (prompt_of r). now rewrite G, P.
  - rewrite (generate_recipe_valid _ _ _ T V), G, P.
    destruct recipe; try reflexivity. now destruct (D o).
Qed.

(** X14. When the value under recipes has no length (null, a bool, a
    number), the generator reports a success but POST /suggest_recipes
    answers 500 "Internal server error": counting the recipes for the log
    raises. *)
Theorem recipes_without_length_is_500 (data : list (string * json))
  (r : MultipleRecipesRequest.t) (response_text : string)
  (recipes_data : list (string * json)) (recipes : json) (e : pyexn)
  (sent : list string) :
  data <> [] ->
  validate_MultipleRecipesRequest data = inr r ->
  generate_content (suggestions_prompt_of r) = inr response_text ->
  json_loads (clean_response response_text) = inr (JObj recipes_data) ->
  lookup "recipes" recipes_data = Some recipes ->
  py_len recipes = inl e ->
  suggest_recipes (inr (JObj data)) sent
  = (inr (JObj [("success", JBool false);
                ("error", JStr "Internal server error");
                ("message", JStr (str_exn e))], 500),
     (sent ++ [suggestions_prompt_of r])%list).
Proof.
  intros N V G L K Len.
  pose proof (truthy_nonempty data N) as T.
  rewrite (suggest_recipes_valid _ _ _ T V), G, L.
  cbn [py_get]. now rewrite K, Len.
Qed.

(** X15. When the answer to a valid request decodes to an object,
    POST /suggest_recipes answers 200 with the value under recipes as it
    is when that value has a length, and with an empty list when the key
    is not there. *)
Theorem suggestions_are_200 (data : list (string * json))
  (r : MultipleRecipesRequest.t) (response_text : string)
  (recipes_data : list (string * json)) (sent : list string) :
  data <> [] ->
  validate_MultipleRecipesRequest data = inr r ->
  generate_content (suggestions_prompt_of r) = inr response_text ->
  json_loads (clean_response response_text) = inr (JObj recipes_data) ->
  (forall recipes n,
      lookup "recipes" recipes_data = Some recipes ->
      py_len recipes = inr n ->
      suggest_recipes (inr (JObj data)) sent
      = (inr (JObj [("success", JBool true); ("recipes", recipes)], 200),
         (sent ++ [suggestions_prompt_of r])%list))
  /\ (lookup "recipes" recipes_data = None ->
      suggest_recipes (inr (JObj data)) sent
      = (inr (JObj [("success", JBool true); ("recipes", JArr [])], 200),
         (sent ++ [suggestions_prompt_of r])%list)).
Proof.
  intros N V G L.
  pose proof (truthy_nonempty data N) as T.
  rewrite (suggest_recipes_valid _ _ _ T V), G, L. cbn [py_get]. split.
  - intros recipes n K Len. now rewrite K, Len.
  - intros K. now rewrite K.
Qed.

(** X16. dietary_restrictions given as null passes the validation as
    [None], and the prompt sent is the one of a request without the key:
    no clause about restrictions. *)
Theorem null_restrictions_are_none (items : list string)
  (sent : list string) :
  str_accepted pyd_str ->
  (1 <= Z.of_nat (List.length items) <= MAX_INGREDIENTS)%Z ->
  validate_RecipeRequest
    [("ingredients", JArr (map JStr items)); ("dietary_restrictions", JNull)]
  = inr (RecipeRequest.Build items None None)
  /\ snd (generate_recipe
            (inr (JObj [("ingredients", JArr (map JStr items));
                        ("dietary_restrictions", JNull)])) sent)
     = snd (generate_recipe
              (inr (JObj [("ingredients", JArr (map JStr items))])) sent).
Proof.
  intros Hstr Hlen.
  assert (B : forall data,
             lookup "ingredients" data = Some (JArr (map JStr items)) ->
             validate_ingredients data = inr items).
  { intros data L.
    rewrite (validate_ingredients_strs MAX_INGREDIENTS pyd_str _ items Hstr L).
    destruct (Z.ltb_spec (Z.of_nat (List.length items)) 1); [lia|].
    destruct (Z.ltb_spec MAX_INGREDIENTS (Z.of_nat (List.length items)));
      [lia | reflexivity]. }
  assert (V1 : validate_RecipeRequest
                 [("ingredients", JArr (map JStr items));
                  ("dietary_restrictions", JNull)]
               = inr (RecipeRequest.Build items None None)).
  { unfold App.validate_RecipeRequest.
    now rewrite (B [("ingredients", JArr (map JStr items));
                    ("dietary_restrictions", JNull)] eq_refl). }
  assert (V2 : validate_RecipeRequest [("ingredients", JArr (map JStr items))]
               = inr (RecipeRequest.Build items None (Some []))).
  { unfold App.validate_RecipeRequest.
    now rewrite (B [("ingredients", JArr (map JStr items))] eq_refl). }
  split; [exact V1|].
  rewrite (generate_recipe_valid_sent json_loads generate_content
             MAX_INGREDIENTS pyd_str not_a_mapping
             [("ingredients", JArr (map JStr items));
              ("dietary_restrictions", JNull)] _ sent eq_refl V1).
  rewrite (generate_recipe_valid_sent json_loads generate_content
             MAX_INGREDIENTS pyd_str not_a_mapping
             [("ingredients", JArr (map JStr items))] _ sent eq_refl V2).
  reflexivity.
Qed.

(** X17. A request to /suggest_recipes that gives no count asks the model
    for 3 recipes: the prompt sent is the one of count 3. *)
Theorem count_defaults_to_three (items : list string) (sent : list string) :
  str_accepted pyd_str ->
  (1 <= Z.of_nat (List.length items) <= MAX_INGREDIENTS)%Z ->
  snd (suggest_recipes
         (inr (JObj [("ingredients", JArr (map JStr items))])) sent)
  = (sent ++ [suggestions_prompt items 3])%list.
Proof.
  intros Hstr Hlen.
  assert (V : validate_MultipleRecipesRequest
                [("ingredients", JArr (map JStr items))]
              = inr (MultipleRecipesRequest.Build items 3)).
  { unfold App.validate_MultipleRecipesRequest.
    rewrite (validate_ingredients_strs MAX_INGREDIENTS pyd_str
               [("ingredients", JArr (map JStr items))] items Hstr eq_refl).
    destruct (Z.ltb_spec (Z.of_nat (List.length items)) 1); [lia|].
    destruct (Z.ltb_spec MAX_INGREDIENTS (Z.of_nat (List.length items)));
      [lia | reflexivity]. }
  rewrite (suggest_recipes_valid
             [("ingredients", JArr (map JStr items))] _ sent eq_refl V).
  reflexivity.
Qed.
End AppEdges.

Lemma missing_ingredients_is_bad_request_witness :
  [("count", JInt 2)] <> []
  /\ lookup "ingredients" [("count", JInt 2)] = None
  /\ exists errs errs',
       In ("ingredients", "missing") errs
       /\ In ("ingredients", "missing") errs'
       /\ App.generate_recipe json_loads_ref (stub_model prose) default_max
            App.strict_str App.mapping_message
            (inr (JObj [("count", JInt 2)])) []
          = (inr (validation_error errs, 400), [])
       /\ App.suggest_recipes json_loads_ref (stub_model prose) default_max
            App.strict_str App.strict_int App.mapping_message
            (inr (JObj [("count", JInt 2)])) []
          = (inr (validation_error errs', 400), []).
Proof.
  assert (N : [("count", JInt 2)] <> ([] : list (string * json)))
    by discriminate.
  split; [exact N|]. split; [reflexivity|].
  exact (missing_ingredients_is_bad_request json_loads_ref (stub_model prose)
           default_max App.strict_str App.strict_int App.mapping_message
           [("count", JInt 2)] [] N eq_refl).
Defined.

Lemma upstream_failure_is_500_witness :
  egg_request <> []
  /\ App.validate_RecipeRequest default_max App.strict_str egg_request
     = inr egg_recipe_request
  /\ failing_model (prompt_of egg_recipe_request) = inl quota_error
  /\ App.generate_recipe json_loads_ref failing_model default_max
       App.strict_str App.mapping_message (inr (JObj egg_request)) []
     = (inr (JObj [("success", JBool false);
                   ("error", JStr (str_exn quota_error));
                   ("message", JStr "Failed to generate recipe")], 500),
        ([] ++ [prompt_of egg_recipe_request])%list).
Proof.
  assert (N : egg_request <> []) by discriminate.
  split; [exact N|]. split; [reflexivity|]. split; [reflexivity|].
  exact (upstream_failure_is_500 json_loads_ref failing_model default_max
           App.strict_str App.mapping_message egg_request egg_recipe_request
           quota_error [] N eq_refl eq_refl).
Defined.

Lemma unparsable_answer_is_200_witness :
  egg_request <> []
  /\ App.validate_RecipeRequest default_max App.strict_str egg_request
     = inr egg_recipe_request
  /\ json_loads_ref (clean_response prose)
     = inl (PyExn JSONDecodeError expecting_value)
  /\ App.generate_recipe json_loads_ref (stub_model prose) default_max
       App.strict_str App.mapping_message (inr (JObj egg_request)) []
     = (inr (JObj [("success", JBool true);
                   ("recipe", RecipeGenerator.fallback_recipe prose)], 200),
        ([] ++ [prompt_of egg_recipe_request])%list).
Proof.
  assert (N : egg_request <> []) by discriminate.
  assert (H : json_loads_ref (clean_response prose)
              = inl (PyExn JSONDecodeError expecting_value))
    by (vm_compute; reflexivity).
  split; [exact N|]. split; [reflexivity|]. split; [exact H|].
  exact (unparsable_answer_is_200 json_loads_ref (stub_model prose)
           default_max App.strict_str App.mapping_message egg_request
           egg_recipe_request prose _ [] N eq_refl eq_refl H eq_refl).
Defined.

Lemma recipe_that_is_no_dict_is_500_witness :
  egg_request <> []
  /\ App.validate_RecipeRequest default_max App.strict_str egg_request
     = inr egg_recipe_request
  /\ RecipeGenerator._parse_response json_loads_ref names_text
     = inr names_list
  /\ App.generate_recipe json_loads_ref (stub_model names_text) default_max
       App.strict_str App.mapping_message (inr (JObj egg_request)) []
     = (inr (JObj [("success", JBool false);
                   ("error", JStr "Internal server error");
                   ("message",
                    JStr ("'" ++ type_name names_list
                          ++ "' object has no attribute 'get'"))], 500),
        ([] ++ [prompt_of egg_recipe_request])%list).
Proof.
  assert (N : egg_request <> []) by discriminate.
  assert (H : RecipeGenerator._parse_response json_loads_ref names_text
              = inr names_list) by (vm_compute; reflexivity).
  assert (D : forall o, names_list <> JObj o) by (intros o; discriminate).
  split; [exact N|]. split; [reflexivity|]. split; [exact H|].
  exact (proj2 (recipe_that_is_no_dict_is_500 json_loads_ref
                  (stub_model names_text) default_max App.strict_str
                  App.mapping_message egg_request egg_recipe_request
                  names_text names_list [] N eq_refl eq_refl H D)).
Defined.

Lemma recipes_without_length_is_500_witness :
  egg_request <> []
  /\ App.validate_MultipleRecipesRequest default_max App.strict_str
       App.strict_int egg_request
     = inr egg_suggestions_request
  /\ json_loads_ref (clean_response recipes_number_text)
     = inr (JObj [("recipes", JInt 5)])
  /\ py_len (JInt 5)
     = inl (PyExn TypeError "object of type 'int' has no len()")
  /\ App.suggest_recipes json_loads_ref (stub_model recipes_number_text)
       default_max App.strict_str App.strict_int App.mapping_message
       (inr (JObj egg_request)) []
     = (inr (JObj [("success", JBool false);
                   ("error", JStr "Internal server error");
                   ("message", JStr "object of type 'int' has no len()")],
             500),
        ([] ++ [suggestions_prompt_of egg_suggestions_request])%list).
Proof.
  assert (N : egg_request <> []) by discriminate.
  assert (H : json_loads_ref (clean_response recipes_number_text)
              = inr (JObj [("recipes", JInt 5)]))
    by (vm_compute; reflexivity).
  split; [exact N|]. split; [reflexivity|]. split; [exact H|].
  split; [reflexivity|].
  exact (recipes_without_length_is_500 json_loads_ref
           (stub_model recipes_number_text) default_max App.strict_str
           App.strict_int App.mapping_message egg_request
           egg_suggestions_request recipes_number_text
           [("recipes", JInt 5)] (JInt 5)
           (PyExn TypeError "object of type 'int' has no len()") []
           N eq_refl eq_refl H eq_refl eq_refl).
Defined.

Lemma suggestions_are_200_witness :
  egg_request <> []
  /\ App.validate_MultipleRecipesRequest default_max App.strict_str
       App.strict_int egg_request
     = inr egg_suggestions_request
  /\ json_loads_ref (clean_response recipes_text)
     = inr (JObj [("recipes", recipes_list)])
  /\ py_len recipes_list = inr 1
  /\ App.suggest_recipes json_loads_ref (stub_model recipes_text)
       default_max App.strict_str App.strict_int App.mapping_message
       (inr (JObj egg_request)) []
     = (inr (JObj [("success", JBool true); ("recipes", recipes_list)], 200),
        ([] ++ [suggestions_prompt_of egg_suggestions_request])%list).
Proof.
  assert (N : egg_request <> []) by discriminate.
  assert (H : json_loads_ref (clean_response recipes_text)
              = inr (JObj [("recipes", recipes_list)]))
    by (vm_compute; reflexivity).
  split; [exact N|]. split; [reflexivity|]. split; [exact H|].
  split; [reflexivity|].
  exact (proj1 (suggestions_are_200 json_loads_ref (stub_model recipes_text)
                  default_max App.strict_str App.strict_int
                  App.mapping_message egg_request egg_suggestions_request
                  recipes_text [("recipes", recipes_list)] []
                  N eq_refl eq_refl H)
           recipes_list 1 eq_refl eq_refl).
Defined.

Lemma null_restrictions_are_none_witness :
  str_accepted App.strict_str
  /\ (1 <= Z.of_nat (List.length ["egg"]) <= default_max)%Z
  /\ App.validate_RecipeRequest default_max App.strict_str egg_null_request
     = inr (RecipeRequest.Build ["egg"] None None)
  /\ snd (App.generate_recipe json_loads_ref (stub_model prose) default_max
            App.strict_str App.mapping_message
            (inr (JObj egg_null_request)) [])
     = snd (App.generate_recipe json_loads_ref (stub_model prose) default_max
              App.strict_str App.mapping_message
              (inr (JObj egg_request)) []).
Proof.
  assert (B : (1 <= Z.of_nat (List.length ["egg"]) <= default_max)%Z)
    by (unfold default_max; simpl; lia).
  split; [exact strict_str_accepted|]. split; [exact B|].
  exact (null_restrictions_are_none json_loads_ref (stub_model prose)
           default_max App.strict_str App.mapping_message ["egg"] []
           strict_str_accepted B).
Defined.

Lemma count_defaults_to_three_witness :
  str_accepted App.strict_str
  /\ (1 <= Z.of_nat (List.length ["egg"]) <= default_max)%Z
  /\ snd (App.suggest_recipes json_loads_ref (stub_model prose) default_max
            App.strict_str App.strict_int App.mapping_message
            (inr (JObj egg_request)) [])
     = ([] ++ [RecipeGenerator.suggestions_prompt ["egg"] 3])%list.
Proof.
  assert (B : (1 <= Z.of_nat (List.length ["egg"]) <= default_max)%Z)
    by (unfold default_max; simpl; lia).
  split; [exact strict_str_accepted|]. split; [exact B|].
  exact (count_defaults_to_three json_loads_ref (stub_model prose)
           default_max App.strict_str App.strict_int App.mapping_message
           ["egg"] [] strict_str_accepted B).
Defined.

(* ------------------------------------------------------------------ *)
(** ** Properties of the configuration *)

Section ConfigProperties.
Variable environ : string -> option string.
Variable invalid_literal : string -> string.

Local Abbreviation load := (Config.load environ invalid_literal).
Local Abbreviation getenv_int := (Config.getenv_int environ invalid_literal).

Lemma getenv_int_cases (name : string) (default : Z) :
  (exists z, getenv_int name default = inr z
             /\ match environ name with
                | Some v => py_int v = Some z
                | None => z = default
                end)
  \/ (exists v, environ name = Some v /\ py_int v = None
                /\ getenv_int name default
                   = raise ValueError (invalid_literal v)).
Proof.
  unfold Config.getenv_int. destruct (environ name) as [v|].
  - destruct (py_int v) as [z|] eqn:E.
    + left. now exists z.
    + right. now exists v.
  - left. now exists default.
Qed.

(** What a successful load gives the three integer settings and the key. *)
Lemma load_fields (config : Config.t) :
  load = inr config ->
  getenv_int "PORT" 5000 = inr (Config.PORT config)
  /\ getenv_int "MAX_INGREDIENTS" 20 = inr (Config.MAX_INGREDIENTS config)
  /\ getenv_int "REQUEST_TIMEOUT" 30 = inr (Config.REQUEST_TIMEOUT config)
  /\ Config.GEMINI_API_KEY config = environ "GEMINI_API_KEY"
  /\ Config.DEBUG config
     = String.eqb (lower (Config.getenv environ "DEBUG" "True")) "true".
Proof.
  unfold Config.load.
  destruct (getenv_int "PORT" 5000) as [e|p]; [discriminate|].
  destruct (getenv_int "MAX_INGREDIENTS" 20) as [e|m]; [discriminate|].
  destruct (getenv_int "REQUEST_TIMEOUT" 30) as [e|t]; [discriminate|].
  cbn [ebind]. intros H. inversion H. cbn. repeat split.
Qed.




(** X19. The bound the validation applies to the ingredients is the one of
    the environment: the integer MAX_INGREDIENTS is set to, 20 when it is
    not set. A list of strings is accepted exactly when its length is
    between 1 and that bound. *)
Theorem configured_max_bounds_ingredients (config : Config.t) (bound : Z)
  (pyd_str : json -> option string) (data : list (string * json))
  (items : list string) :
  load = inr config ->
  configured_max environ = Some bound ->
  str_accepted pyd_str ->
  lookup "ingredients" data = Some (JArr (map JStr items)) ->
  Config.MAX_INGREDIENTS config = bound
  /\ (App.validate_ingredients (Config.MAX_INGREDIENTS config) pyd_str data
      = inr items
      <-> (1 <= Z.of_nat (List.length items) <= bound)%Z).
Proof.
  intros L C Hstr Hl.
  assert (B : Config.MAX_INGREDIENTS config = bound).
  { destruct (load_fields _ L) as (_ & M & _).
    unfold Config.getenv_int in M. unfold configured_max in C.
    destruct (environ "MAX_INGREDIENTS") as [v|].
    - rewrite C in M. now inversion M.
    - inversion M. now inversion C. }
  split; [exact B|]. rewrite B.
  rewrite (validate_ingredients_strs bound pyd_str data items Hstr Hl).
  destruct (Z.ltb_spec (Z.of_nat (List.length items)) 1);
    [split; [discriminate | lia]|].
  destruct (Z.ltb_spec bound (Z.of_nat (List.length items)));
    [split; [discriminate | lia]|].
  split; [lia | reflexivity].
Qed.

(** X20. The debug switch is on when DEBUG is not set, and otherwise
    exactly when its value is the word true in any mix of capitals and
    small letters; 1, yes or on leave it off. *)
Theorem debug_is_on_iff (config : Config.t) :
  load = inr config ->
  (Config.DEBUG config = true
   <-> (environ "DEBUG" = None
        \/ exists v, environ "DEBUG" = Some v /\ lower v = "true")).
Proof.
  intros L. destruct (load_fields _ L) as (_ & _ & _ & _ & D).
  rewrite D. unfold Config.getenv.
  destruct (environ "DEBUG") as [v|].
  - rewrite String.eqb_eq. split.
    + intros H. right. now exists v.
    + intros [H | (w & Hw & Hl)]; [discriminate|]. now inversion Hw.
  - split; [now left | reflexivity].
Qed.
End ConfigProperties.

Lemma configured_max_bounds_ingredients_witness :
  Config.load sample_environ literal_message = inr sample_config
  /\ configured_max sample_environ = Some 5%Z
  /\ str_accepted App.strict_str
  /\ lookup "ingredients" egg_request = Some (JArr (map JStr ["egg"]))
  /\ Config.MAX_INGREDIENTS sample_config = 5%Z
  /\ (App.validate_ingredients (Config.MAX_INGREDIENTS sample_config)
        App.strict_str egg_request
      = inr ["egg"]
      <-> (1 <= Z.of_nat (List.length ["egg"]) <= 5)%Z).
Proof.
  split; [reflexivity|]. split; [reflexivity|].
  split; [exact strict_str_accepted|]. split; [reflexivity|].
  exact (configured_max_bounds_ingredients sample_environ literal_message
           sample_config 5 App.strict_str egg_request ["egg"]
           eq_refl eq_refl strict_str_accepted eq_refl).
Defined.

Lemma debug_is_on_iff_witness :
  Config.load sample_environ literal_message = inr sample_config
  /\ (Config.DEBUG sample_config = true
      <-> (sample_environ "DEBUG" = None
           \/ exists v, sample_environ "DEBUG" = Some v /\ lower v = "true")).
Proof.
  split; [reflexivity|].
  exact (debug_is_on_iff sample_environ literal_message sample_config
           eq_refl).
Defined.

Example startup_sample :
  startup sample_environ literal_message = inr sample_config
  /\ startup (env_of [("MAX_INGREDIENTS", "20")]) literal_message
     = raise ValueError
         "GEMINI_API_KEY is required. Please set it in .env file"
  /\ startup (env_of [("GEMINI_API_KEY", "secret"); ("PORT", "")])
       literal_message
     = raise ValueError "invalid literal for int() with base 10: ''".
Proof. vm_compute. repeat split. Qed.
